(** * fraud-detector-cli: the batched rule-evaluation engine of [main.go]

    A shallow embedding of [detectFraud] and [processBatch], the two
    functions that make up the detection core, together with the parts of
    Go's [time] and [fmt] packages they call.

    - a [float64] is an IEEE 754 binary64 value, [SpecFloat.spec_float];
      the only operations the engine applies to one are [>] and ["%.2f"];
    - a [time.Time] is an instant, in nanoseconds; a [time.Duration] is a
      signed 64-bit count of nanoseconds, and [Time.Sub] saturates;
    - a Go slice is a list; [Store] below models slices as views of a shared
      backing array, for the claims about what the run does to its input;
    - the goroutines of [detectFraud] append their batch's results to the
      shared collection under one mutex: a run is determined by the order in
      which the workers take that mutex, the schedule. *)

From Stdlib Require Import ZArith String Ascii List Bool Arith Lia.
From Stdlib Require Import Permutation DecimalString SpecFloat.
Import ListNotations.

Open Scope string_scope.
Open Scope list_scope.
Open Scope nat_scope.

(** ** Go's [time] package: instants and durations *)

Module GoTime.

(** An instant, as nanoseconds since the Unix epoch. *)
Definition Time := Z.

(** A duration: an [int64] count of nanoseconds. *)
Definition Duration := Z.

Definition minDuration : Duration := (- 2 ^ 63)%Z.
Definition maxDuration : Duration := (2 ^ 63 - 1)%Z.

Definition Nanosecond : Duration := 1%Z.
Definition Microsecond : Duration := (1000 * Nanosecond)%Z.
Definition Millisecond : Duration := (1000 * Microsecond)%Z.
Definition Second : Duration := (1000 * Millisecond)%Z.
Definition Minute : Duration := (60 * Second)%Z.
Definition Hour : Duration := (60 * Minute)%Z.

(** [t.Sub(u)]: the duration [t - u]; when it does not fit a [Duration]
    the maximum (or minimum) duration is returned. *)
Definition Sub (t u : Time) : Duration :=
  let d := (t - u)%Z in
  if (d <? minDuration)%Z then minDuration
  else if (maxDuration <? d)%Z then maxDuration
  else d.

(** The decimal digit [v mod 10] as a character. *)
Definition digit (v : Z) : ascii :=
  ascii_of_nat (48 + Z.to_nat (v mod 10)).

(** [fmtFrac]: the fraction of [v / 10^prec] written in front of [buf],
    trailing zeros omitted, and the decimal point too when the fraction is
    zero; returns the text and [v / 10^prec]. *)
Fixpoint fmtFracLoop (prec : nat) (v : Z) (print : bool) (buf : string)
  : string * Z * bool :=
  match prec with
  | O => (buf, v, print)
  | S prec' =>
      let d := (v mod 10)%Z in
      let print := print || negb (d =? 0)%Z in
      let buf := if print then String (digit d) buf else buf in
      fmtFracLoop prec' (v / 10)%Z print buf
  end.

Definition fmtFrac (buf : string) (v : Z) (prec : nat) : string * Z :=
  let '(buf, v, print) := fmtFracLoop prec v false buf in
  (if print then String "." buf else buf, v).

(** [fmtInt]: [v] in decimal, written in front of [buf]. *)
Definition fmtInt (buf : string) (v : Z) : string :=
  (NilZero.string_of_uint (N.to_uint (Z.to_N v)) ++ buf)%string.

(** The two bytes of the UTF-8 encoding of the micro sign. *)
Definition micro : string :=
  String (ascii_of_nat 194) (String (ascii_of_nat 181) EmptyString).

(** [Duration.String], which ["%v"] prints: ["72h3m0.5s"], ["2m0s"],
    ["1.5ms"], ["0s"]. *)
Definition DurationString (d : Duration) : string :=
  let neg := (d <? 0)%Z in
  let u := Z.abs d in
  let body :=
    if (u <? Second)%Z then
      if (u =? 0)%Z then "0s"
      else if (u <? Microsecond)%Z then
        let '(buf, u) := fmtFrac "ns" u 0 in fmtInt buf u
      else if (u <? Millisecond)%Z then
        let '(buf, u) := fmtFrac (micro ++ "s")%string u 3 in fmtInt buf u
      else
        let '(buf, u) := fmtFrac "ms" u 6 in fmtInt buf u
    else
      let '(buf, u) := fmtFrac "s" u 9 in
      let buf := fmtInt buf (u mod 60)%Z in
      let u := (u / 60)%Z in
      if (0 <? u)%Z then
        let buf := fmtInt (String "m" buf) (u mod 60)%Z in
        let u := (u / 60)%Z in
        if (0 <? u)%Z then fmtInt (String "h" buf) u else buf
      else buf
  in
  if neg then String "-" body else body.

End GoTime.

(** ** Go's [fmt] package: the verb ["%.2f"] *)

Module GoFmt.

(** A [float64]. *)
Definition float64 := spec_float.

(** [x > y] on [float64]: false whenever either side is a NaN. *)
Definition gt (x y : float64) : bool := SFltb y x.

(** The [float64] nearest to the integer [z]. *)
Definition ofZ (z : Z) : float64 := binary_normalize 53 1024 z 0 false.

(** [n / d] rounded to the nearest integer, ties to even ([0 < d]). *)
Definition roundHalfEven (n d : Z) : Z :=
  let q := (n / d)%Z in
  let r := (n mod d)%Z in
  if (2 * r <? d)%Z then q
  else if (d <? 2 * r)%Z then (q + 1)%Z
  else if Z.even q then q else (q + 1)%Z.

(** The magnitude [m * 2^e] in hundredths, correctly rounded. *)
Definition hundredths (m : positive) (e : Z) : Z :=
  if (0 <=? e)%Z then (Zpos m * 2 ^ e * 100)%Z
  else roundHalfEven (Zpos m * 100) (2 ^ (- e)).

(** A magnitude in hundredths as [digits.dd]. *)
Definition fixed2 (neg : bool) (c : Z) : string :=
  ((if neg then "-" else "")
     ++ NilZero.string_of_uint (N.to_uint (Z.to_N (c / 100)%Z))
     ++ String "." (String (GoTime.digit (c / 10)%Z)
                      (String (GoTime.digit c) EmptyString)))%string.

(** [fmt.Sprintf("%.2f", x)]: the exact decimal expansion of [x] rounded
    to two places, half to even; a sign only when [x] is negative. *)
Definition formatFloat2 (x : float64) : string :=
  match x with
  | S754_nan => "NaN"
  | S754_infinity false => "+Inf"
  | S754_infinity true => "-Inf"
  | S754_zero s => fixed2 s 0
  | S754_finite s m e => fixed2 s (hundredths m e)
  end.

End GoFmt.

Import GoTime GoFmt.

(** ** Data model *)

(** [Transaction] represents a financial transaction. *)
Record Transaction := mkTransaction {
  ID : string;
  Amount : float64;
  Timestamp : Time;
  AccountID : string;
  Merchant : string
}.

(** [FraudResult] represents a detected transaction with the reason; the
    field [Tx] is the field [Transaction] of the source, a copy of the
    flagged transaction. *)
Record FraudResult := mkFraudResult {
  Tx : Transaction;
  Reason : string
}.

(** [Config] holds the fraud detection thresholds. *)
Record Config := mkConfig {
  HighAmountThreshold : float64;
  TimeWindow : Duration;
  OutputFile : string
}.

(** ** The rule engine: [processBatch] *)

Definition highAmountReason (tx : Transaction) : string :=
  ("High amount: $" ++ formatFloat2 (Amount tx))%string.

Definition rapidEarlierReason (timeDiff : Duration) (nextTx : Transaction) : string :=
  ("Rapid transaction: " ++ DurationString timeDiff
     ++ " later with $" ++ formatFloat2 (Amount nextTx))%string.

Definition rapidLaterReason (tx : Transaction) (timeDiff : Duration) : string :=
  ("Rapid transaction: following $" ++ formatFloat2 (Amount tx)
     ++ " after " ++ DurationString timeDiff)%string.

(** Rule 1, the first statement of the outer loop's body. *)
Definition highAmount (config : Config) (tx : Transaction)
  (batchResults : list FraudResult) : list FraudResult :=
  if gt (Amount tx) (HighAmountThreshold config) then
    batchResults ++ [mkFraudResult tx (highAmountReason tx)]
  else batchResults.

(** Rule 2, the body of the inner loop at [tx = batch[i]] and
    [nextTx = batch[j]]. *)
Definition rapidSuccession (config : Config) (tx nextTx : Transaction)
  (batchResults : list FraudResult) : list FraudResult :=
  if negb (AccountID nextTx =? AccountID tx)%string then batchResults
  else
    let timeDiff := Sub (Timestamp nextTx) (Timestamp tx) in
    if (timeDiff <? TimeWindow config)%Z && (timeDiff >? 0)%Z then
      (batchResults ++ [mkFraudResult tx (rapidEarlierReason timeDiff nextTx)])
        ++ [mkFraudResult nextTx (rapidLaterReason tx timeDiff)]
    else batchResults.

(** [for j := ...; j < len(batch); j++]: [fuel] bounds the number of
    iterations left; [length batch - j] of them are enough. *)
Fixpoint innerLoop (config : Config) (batch : list Transaction)
  (tx : Transaction) (fuel j : nat) (batchResults : list FraudResult)
  : list FraudResult :=
  match fuel with
  | O => batchResults
  | S fuel =>
      if j <? length batch then
        match nth_error batch j with
        | Some nextTx =>
            innerLoop config batch tx fuel (S j)
              (rapidSuccession config tx nextTx batchResults)
        | None => batchResults
        end
      else batchResults
  end.

(** [for i, tx := range batch], from position [i] on. *)
Fixpoint outerLoop (config : Config) (batch : list Transaction)
  (fuel i : nat) (batchResults : list FraudResult) : list FraudResult :=
  match fuel with
  | O => batchResults
  | S fuel =>
      match nth_error batch i with
      | Some tx =>
          let batchResults := highAmount config tx batchResults in
          let batchResults :=
            innerLoop config batch tx (length batch - (i + 1)) (i + 1)
              batchResults in
          outerLoop config batch fuel (S i) batchResults
      | None => batchResults
      end
  end.

(** [processBatch] processes a batch of transactions for fraud detection. *)
Definition processBatch (batch : list Transaction) (config : Config)
  : list FraudResult :=
  outerLoop config batch (length batch) 0 [].

(** ** The partitioner and the batch scheduler: [detectFraud] *)

(** Positions and lengths are [nat]: a Go [int] does not overflow in
    [detectFraud], where the largest value computed is [len + batchSize] and
    a slice of transactions is far shorter than [2^63 - 100]. *)

(** [s[lo:hi]] on a list. *)
Definition slice {A : Type} (s : list A) (lo hi : nat) : list A :=
  firstn (hi - lo) (skipn lo s).

(** The batch size of the source. *)
Definition batchSize : nat := 100.

Section Batching.

(** The partition arithmetic of [detectFraud], read for any batch size;
    the source fixes it to [batchSize]. A batch size of zero is not
    modelled: Go's integer division panics on it. *)
Variable size : nat.

(** The variable [batches]. *)
Definition numBatches (n : nat) : nat :=
  let batches := n / size in
  if negb (n mod size =? 0) then batches + 1 else batches.

(** The slice [transactions[start:end]] handed to goroutine [i]. *)
Definition batchAt (transactions : list Transaction) (i : nat)
  : list Transaction :=
  let start := i * size in
  let end_ := start + size in
  let end_ := if length transactions <? end_ then length transactions else end_ in
  slice transactions start end_.

(** All batches, in the order the loop creates them. *)
Definition partition (transactions : list Transaction)
  : list (list Transaction) :=
  map (batchAt transactions) (seq 0 (numBatches (length transactions))).

(** The body of goroutine [i] from the lock on:
    [results = append(results, batchResults...)]. *)
Definition worker (transactions : list Transaction) (config : Config)
  (results : list FraudResult) (i : nat) : list FraudResult :=
  results ++ processBatch (batchAt transactions i) config.

(** A schedule lists the goroutines in the order they take the mutex:
    each of the [batches] goroutines takes it once. *)
Definition schedule (transactions : list Transaction) (sched : list nat) : Prop :=
  Permutation sched (seq 0 (numBatches (length transactions))).

(** The run under a schedule: what [results] holds once [wg.Wait]
    returns. *)
Definition detectFraudWith (sched : list nat)
  (transactions : list Transaction) (config : Config) : list FraudResult :=
  fold_left (worker transactions config) sched [].

End Batching.

(** [detectFraud] applies fraud detection rules to transactions. *)
Definition detectFraud (sched : list nat) (transactions : list Transaction)
  (config : Config) : list FraudResult :=
  detectFraudWith batchSize sched transactions config.

(** ** The run over a store

    The caller's [transactions] is a slice header onto a backing array that
    every batch aliases: [transactions[start:end]] copies no element. The
    store below holds that array. A computation takes the store and returns
    it with its value, or panics ([None]) on an index or a slice bound out
    of range. The results are values local to a goroutine until the locked
    append; the goroutines only read the store, so that running them one
    after the other, in the order of the schedule, loses no behaviour. *)

Module Store.

(** The backing array. *)
Definition Heap := list Transaction.

(** A slice header. *)
Record Slice := mkSlice {
  ptr : nat;
  len : nat;
  cap : nat
}.

Definition M (A : Type) : Type := Heap -> option (A * Heap).

Definition ret {A : Type} (a : A) : M A := fun h => Some (a, h).

Definition bind {A B : Type} (c : M A) (k : A -> M B) : M B :=
  fun h =>
    match c h with
    | Some (a, h') => k a h'
    | None => None
    end.

Notation "x <- c ;; k" := (bind c (fun x => k))
  (at level 61, c at next level, right associativity).

(** [s[j]], read. *)
Definition index (s : Slice) (j : nat) : M Transaction :=
  fun h =>
    if j <? len s then
      match nth_error h (ptr s + j) with
      | Some tx => Some (tx, h)
      | None => None
      end
    else None.

(** [s[lo:hi]]. *)
Definition reslice (s : Slice) (lo hi : nat) : M Slice :=
  fun h =>
    if (lo <=? hi) && (hi <=? cap s) then
      Some (mkSlice (ptr s + lo) (hi - lo) (cap s - lo), h)
    else None.

Fixpoint innerLoop (config : Config) (batch : Slice) (tx : Transaction)
  (fuel j : nat) (batchResults : list FraudResult) : M (list FraudResult) :=
  match fuel with
  | O => ret batchResults
  | S fuel =>
      if j <? len batch then
        nextTx <- index batch j ;;
        innerLoop config batch tx fuel (S j)
          (rapidSuccession config tx nextTx batchResults)
      else ret batchResults
  end.

Fixpoint outerLoop (config : Config) (batch : Slice) (fuel i : nat)
  (batchResults : list FraudResult) : M (list FraudResult) :=
  match fuel with
  | O => ret batchResults
  | S fuel =>
      if i <? len batch then
        tx <- index batch i ;;
        batchResults <-
          innerLoop config batch tx (len batch - (i + 1)) (i + 1)
            (highAmount config tx batchResults) ;;
        outerLoop config batch fuel (S i) batchResults
      else ret batchResults
  end.

Definition processBatch (batch : Slice) (config : Config)
  : M (list FraudResult) :=
  outerLoop config batch (len batch) 0 [].

(** The loop of [detectFraud] up to the [go] statement: the slice of each
    batch, taken in loop order. *)
Fixpoint spawn (size : nat) (transactions : Slice) (fuel i : nat)
  : M (list Slice) :=
  match fuel with
  | O => ret []
  | S fuel =>
      let start := i * size in
      let end_ := start + size in
      let end_ := if len transactions <? end_ then len transactions else end_ in
      batch <- reslice transactions start end_ ;;
      rest <- spawn size transactions fuel (S i) ;;
      ret (batch :: rest)
  end.

(** The goroutines, in the order of the schedule. *)
Fixpoint join (config : Config) (batches : list Slice) (sched : list nat)
  (results : list FraudResult) : M (list FraudResult) :=
  match sched with
  | [] => ret results
  | i :: sched =>
      match nth_error batches i with
      | Some batch =>
          batchResults <- processBatch batch config ;;
          join config batches sched (results ++ batchResults)
      | None => fun _ => None
      end
  end.

Definition detectFraudWith (size : nat) (sched : list nat)
  (transactions : Slice) (config : Config) : M (list FraudResult) :=
  let batches := numBatches size (len transactions) in
  slices <- spawn size transactions batches 0 ;;
  join config slices sched [].

Definition detectFraud (sched : list nat) (transactions : Slice)
  (config : Config) : M (list FraudResult) :=
  detectFraudWith batchSize sched transactions config.

(** The caller's slice over the whole array. *)
Definition whole (h : Heap) : Slice :=
  mkSlice 0 (length h) (length h).

(** The elements a slice header denotes in a store. *)
Definition view (h : Heap) (s : Slice) : list Transaction :=
  firstn (len s) (skipn (ptr s) h).

(** The header of batch [i] of the caller's slice. *)
Definition batchSlice (size : nat) (transactions : Slice) (i : nat) : Slice :=
  let start := i * size in
  let end_ := Nat.min (start + size) (len transactions) in
  mkSlice (ptr transactions + start) (end_ - start) (cap transactions - start).

End Store.

(** ** What one iteration contributes

    The results a loop iteration appends, read off the loop bodies at an
    empty [batchResults]; the theorems below show that the output of
    [processBatch] is their concatenation in iteration order. *)

(** The result of rule 1 at [tx]. *)
Definition resultsOfHighTx (config : Config) (tx : Transaction) : list FraudResult :=
  highAmount config tx [].

(** The results of rule 2 at [tx] and the transaction at position [j]. *)
Definition resultsOfPairTx (config : Config) (batch : list Transaction)
  (tx : Transaction) (j : nat) : list FraudResult :=
  match nth_error batch j with
  | Some nextTx => rapidSuccession config tx nextTx []
  | None => []
  end.

(** The result of rule 1 at position [i]. *)
Definition resultsOfHigh (config : Config) (batch : list Transaction) (i : nat)
  : list FraudResult :=
  match nth_error batch i with
  | Some tx => resultsOfHighTx config tx
  | None => []
  end.

(** The results of rule 2 at the pair of positions [(i, j)]. *)
Definition resultsOfPair (config : Config) (batch : list Transaction) (i j : nat)
  : list FraudResult :=
  match nth_error batch i with
  | Some tx => resultsOfPairTx config batch tx j
  | None => []
  end.

(** The results of the outer iteration at position [i]: rule 1, then rule 2
    against the positions [i+1 .. end - 1]. *)
Definition resultsUpTo (config : Config) (batch : list Transaction) (end_ i : nat)
  : list FraudResult :=
  resultsOfHigh config batch i
    ++ flat_map (resultsOfPair config batch i) (seq (S i) (end_ - S i)).

Definition resultsAt (config : Config) (batch : list Transaction) (i : nat)
  : list FraudResult :=
  resultsUpTo config batch (length batch) i.

(** The results appended before the inner iteration at [(i, j)] starts:
    those of the outer iterations [0 .. i-1], rule 1 at [i], and rule 2 at
    [(i, i+1) .. (i, j-1)]. *)
Definition resultsBeforePair (config : Config) (batch : list Transaction)
  (i j : nat) : list FraudResult :=
  flat_map (resultsAt config batch) (seq 0 i)
    ++ resultsOfHigh config batch i
    ++ flat_map (resultsOfPair config batch i) (seq (S i) (j - S i)).

(** The results appended after the inner iteration at [(i, j)]. *)
Definition resultsAfterPair (config : Config) (batch : list Transaction)
  (i j : nat) : list FraudResult :=
  flat_map (resultsOfPair config batch i) (seq (S j) (length batch - S j))
    ++ flat_map (resultsAt config batch) (seq (S i) (length batch - S i)).

(** The results appended after rule 1 at the outer iteration [i]. *)
Definition resultsAfterHigh (config : Config) (batch : list Transaction)
  (i : nat) : list FraudResult :=
  flat_map (resultsOfPair config batch i) (seq (S i) (length batch - S i))
    ++ flat_map (resultsAt config batch) (seq (S i) (length batch - S i)).

(** The position one past the end of the batch that holds position [p]. *)
Definition batchEnd (size n p : nat) : nat :=
  Nat.min ((p / size + 1) * size) n.

(** [ceil(n / size)]. *)
Definition ceilDiv (n size : nat) : nat := (n + size - 1) / size.

(** ** Scenarios of the specification *)

Module Scenario.

Definition config : Config := mkConfig (ofZ 1000) (5 * Minute)%Z "".

(** Scenario A: same account, $50 and $60, two minutes apart. *)
Definition a1 : Transaction := mkTransaction "1" (ofZ 50) 0%Z "ACC123" "Store A".
Definition a2 : Transaction :=
  mkTransaction "2" (ofZ 60) (2 * Minute)%Z "ACC123" "Store B".

(** Scenario B: one transaction of $1500. *)
Definition b1 : Transaction := mkTransaction "1" (ofZ 1500) 0%Z "ACC123" "Store A".

(** Scenario C: 150 transactions of $10, an hour apart on accounts of
    their own, but for those at positions 99 and 100, which share an
    account and are one minute apart. *)
Definition decimal (p : nat) : string := NilZero.string_of_uint (Nat.to_uint p).

Definition c (p : nat) : Transaction :=
  if (p =? 99) || (p =? 100) then
    mkTransaction (decimal p) (ofZ 10) (Z.of_nat (p - 99) * Minute)%Z "SHARED" "Store"
  else
    mkTransaction (decimal p) (ofZ 10) (Z.of_nat p * Hour)%Z
      ("ACC" ++ decimal p)%string "Store".

Definition transactionsC : list Transaction := map c (seq 0 150).

(** Two batches with results: 101 transactions of $1500, an hour apart
    on accounts of their own. *)
Definition d (p : nat) : Transaction :=
  mkTransaction (decimal p) (ofZ 1500) (Z.of_nat p * Hour)%Z
    ("ACC" ++ decimal p)%string "Store".

Definition transactionsD : list Transaction := map d (seq 0 101).

(** A non-positive window. *)
Definition configZeroWindow : Config := mkConfig (ofZ 1000) 0%Z "".

End Scenario.

(** ** Counting the results of a batch *)

(** The two tests of rule 2 on [tx = batch[i]] and [nextTx = batch[j]]: the
    accounts are the same and the time difference lies inside the window. *)
Definition qualifies (config : Config) (tx nextTx : Transaction) : bool :=
  (AccountID nextTx =? AccountID tx)%string
  && (let timeDiff := Sub (Timestamp nextTx) (Timestamp tx) in
      (timeDiff <? TimeWindow config)%Z && (timeDiff >? 0)%Z).

(** The pairs the two loops visit: each transaction with each later one. *)
Fixpoint laterPairs (batch : list Transaction)
  : list (Transaction * Transaction) :=
  match batch with
  | [] => []
  | tx :: rest => map (pair tx) rest ++ laterPairs rest
  end.

(** ** [main]: the configuration built from the flags *)

(** A value of type [int64], after wrap-around. *)
Definition wrap64 (z : Z) : Z := ((z + 2 ^ 63) mod 2 ^ 64 - 2 ^ 63)%Z.

(** The [config] of [main] for the values of the flags [-amount], [-window]
    and [-output]: the window is the flag converted to a [time.Duration] and
    multiplied by [time.Minute], a product of two [int64]. *)
Definition mainConfig (highAmount : float64) (timeWindow : Z)
  (outputFile : string) : Config :=
  mkConfig highAmount (wrap64 (timeWindow * Minute)) outputFile.

(** ** [readCSV]: from records to transactions *)

(** A Go result [(value, error)]; an error is held by its message. *)
Inductive result (A : Type) : Type :=
| Ok (a : A)
| Err (msg : string).

Arguments Ok {A} a.
Arguments Err {A} msg.

(** ["%d"] on a non-negative [int]. *)
Definition formatInt (n : nat) : string := NilZero.string_of_uint (Nat.to_uint n).

Section Readers.

(** [strconv.ParseFloat(s, 64)] and [time.Parse(time.RFC3339, s)], of Go's
    library. *)
Variable ParseFloat : string -> result float64.
Variable ParseTime : string -> result Time.

(** The body of the loop of [readCSV] on the record at position [i > 0]:
    the transaction of the record, or the error [readCSV] returns. *)
Definition readRecord (i : nat) (record : list string) : result Transaction :=
  if length record <? 5 then
    Err ("invalid CSV format at line " ++ formatInt (i + 1))%string
  else
    match ParseFloat (nth 1 record "") with
    | Err err =>
        Err ("invalid amount at line " ++ formatInt (i + 1) ++ ": " ++ err)%string
    | Ok amount =>
        match ParseTime (nth 2 record "") with
        | Err err =>
            Err ("invalid timestamp at line " ++ formatInt (i + 1)
                   ++ ": " ++ err)%string
        | Ok timestamp =>
            Ok (mkTransaction (nth 0 record "") amount timestamp
                  (nth 3 record "") (nth 4 record ""))
        end
    end.

(** [for i, record := range records], from position [i] on. *)
Fixpoint readCSVLoop (records : list (list string)) (i : nat)
  (transactions : list Transaction) : result (list Transaction) :=
  match records with
  | [] => Ok transactions
  | record :: rest =>
      if i =? 0 then readCSVLoop rest (S i) transactions
      else
        match readRecord i record with
        | Err msg => Err msg
        | Ok tx => readCSVLoop rest (S i) (transactions ++ [tx])
        end
  end.

(** [readCSV] once [reader.ReadAll] has returned [records]. *)
Definition readCSVRecords (records : list (list string))
  : result (list Transaction) :=
  readCSVLoop records 0 [].

(** The record has the five fields of the transaction, and more if any. *)
Definition rowOf (record : list string) (tx : Transaction) : Prop :=
  5 <= length record
  /\ nth 0 record "" = ID tx
  /\ ParseFloat (nth 1 record "") = Ok (Amount tx)
  /\ ParseTime (nth 2 record "") = Ok (Timestamp tx)
  /\ nth 3 record "" = AccountID tx
  /\ nth 4 record "" = Merchant tx.

End Readers.

(** [readCSV]: the records [reader.ReadAll] returns, or its error, then the
    loop over the records. [ReadAll] is that of [encoding/csv], of Go's
    library, on the text of the file. *)
Definition readCSV (ReadAll : string -> result (list (list string)))
  (ParseFloat : string -> result float64) (ParseTime : string -> result Time)
  (file : string) : result (list Transaction) :=
  match ReadAll file with
  | Err err => Err err
  | Ok records => readCSVRecords ParseFloat ParseTime records
  end.

(** ** A sample file *)

Module Sample.

(** Parsers that know the amounts and the timestamps of the sample file of
    the README, and reject every other text. *)
(** [strconv.Quote] on a text of plain letters and digits. *)
Definition quoted (s : string) : string :=
  (String (ascii_of_nat 34) s ++ String (ascii_of_nat 34) EmptyString)%string.

Definition parseFloat (s : string) : result float64 :=
  if (s =? "1500.00")%string then Ok (ofZ 1500)
  else if (s =? "2000.00")%string then Ok (ofZ 2000)
  else Err ("strconv.ParseFloat: parsing " ++ quoted s ++ ": invalid syntax")%string.

Definition parseTime (s : string) : result Time :=
  if (s =? "2024-03-20T10:00:00Z")%string then Ok 1710928800000000000%Z
  else if (s =? "2024-03-20T10:02:00Z")%string then Ok 1710928920000000000%Z
  else Err ("parsing time " ++ s ++ ": cannot parse")%string.

Definition header : list string :=
  ["id"; "amount"; "timestamp"; "account_id"; "merchant"]%string.

Definition row1 : list string :=
  ["1"; "1500.00"; "2024-03-20T10:00:00Z"; "ACC123"; "Store A"]%string.

Definition row2 : list string :=
  ["2"; "2000.00"; "2024-03-20T10:02:00Z"; "ACC123"; "Store B"]%string.

Definition tx1 : Transaction :=
  mkTransaction "1" (ofZ 1500) 1710928800000000000%Z "ACC123" "Store A".

Definition tx2 : Transaction :=
  mkTransaction "2" (ofZ 2000) 1710928920000000000%Z "ACC123" "Store B".

(** [ReadAll] of [encoding/csv], with the settings [csv.NewReader] gives, on
    a text of plain fields, with no quote and no carriage return: a record
    for each line that is not empty, a field between two commas, and an error
    at the first record that has not as many fields as the first one. *)
Fixpoint split (sep : ascii) (s : string) : list string :=
  match s with
  | EmptyString => [EmptyString]
  | String c s' =>
      if Ascii.eqb c sep then EmptyString :: split sep s'
      else
        match split sep s' with
        | field :: fields => String c field :: fields
        | [] => [String c EmptyString]
        end
  end.

Definition readAll (file : string) : result (list (list string)) :=
  let lines := split (ascii_of_nat 10) file in
  let numbered := combine (seq 1 (length lines)) lines in
  let records :=
    map (fun l => (fst l, split ","%char (snd l)))
      (filter (fun l => negb (snd l =? "")%string) numbered) in
  match records with
  | [] => Ok []
  | (_, first) :: _ =>
      match find (fun r => negb (length (snd r) =? length first)) records with
      | Some (line, _) =>
          Err ("record on line " ++ formatInt line
                 ++ ": wrong number of fields")%string
      | None => Ok (map snd records)
      end
  end.

(** A text from its lines, each ended by a line feed. *)
Definition text (lines : list string) : string :=
  String.concat "" (map (fun l => (l ++ String (ascii_of_nat 10) "")%string) lines).

(** The sample file of the README. *)
Definition fileReadme : string :=
  text ["id,amount,timestamp,account_id,merchant";
        "1,1500.00,2024-03-20T10:00:00Z,ACC123,Store A";
        "2,2000.00,2024-03-20T10:02:00Z,ACC123,Store B"]%string.

(** The same file with a sixth column. *)
Definition fileSixColumns : string :=
  text ["id,amount,timestamp,account_id,merchant,note";
        "1,1500.00,2024-03-20T10:00:00Z,ACC123,Store A,first";
        "2,2000.00,2024-03-20T10:02:00Z,ACC123,Store B,second"]%string.

(** A file whose third record has an amount that is no number. *)
Definition fileBadAmount : string :=
  text ["id,amount,timestamp,account_id,merchant";
        "1,1500.00,2024-03-20T10:00:00Z,ACC123,Store A";
        "3,abc,2024-03-20T10:01:00Z,ACC123,Store C";
        "2,2000.00,2024-03-20T10:02:00Z,ACC123,Store B"]%string.

(** A file of two columns. *)
Definition fileTwoColumns : string :=
  text ["id,amount"; "1,1500.00"]%string.

(** The records of the file with a sixth column, and its third record with
    the amount that is no number. *)
Definition recordsSixColumns : list (list string) :=
  [["id"; "amount"; "timestamp"; "account_id"; "merchant"; "note"];
   ["1"; "1500.00"; "2024-03-20T10:00:00Z"; "ACC123"; "Store A"; "first"];
   ["2"; "2000.00"; "2024-03-20T10:02:00Z"; "ACC123"; "Store B"; "second"]]%string.

Definition rowBadAmount : list string :=
  ["3"; "abc"; "2024-03-20T10:01:00Z"; "ACC123"; "Store C"]%string.

End Sample.

(** * Properties *)

(** Case analysis on the two tests of rule 2, in a goal or in [H]. *)
Ltac rule2_cases :=
  unfold rapidSuccession;
  match goal with
  | |- context [negb (?a =? ?b)%string] => destruct (negb (a =? b)%string)
  end;
  cbv zeta;
  try match goal with
  | |- context [(?d <? ?w)%Z && (?d >? 0)%Z] =>
      destruct ((d <? w)%Z && (d >? 0)%Z) eqn:?
  end.

Ltac rule2_cases_in H :=
  unfold rapidSuccession in H;
  match type of H with
  | context [negb (?a =? ?b)%string] => destruct (negb (a =? b)%string)
  end;
  cbv zeta in H;
  try match type of H with
  | context [(?d <? ?w)%Z && (?d >? 0)%Z] =>
      destruct ((d <? w)%Z && (d >? 0)%Z) eqn:?
  end.

(** ** The loops of [processBatch] *)

Section Loops.

Variable config : Config.

Lemma highAmount_appends (tx : Transaction) (acc : list FraudResult) :
  highAmount config tx acc = acc ++ resultsOfHighTx config tx.
Proof.
  unfold resultsOfHighTx, highAmount.
  destruct (gt (Amount tx) (HighAmountThreshold config)).
  - reflexivity.
  - now rewrite app_nil_r.
Qed.

Lemma rapidSuccession_appends (tx nextTx : Transaction) (acc : list FraudResult) :
  rapidSuccession config tx nextTx acc = acc ++ rapidSuccession config tx nextTx [].
Proof.
  rule2_cases; rewrite ?app_nil_r, <- ?app_assoc; reflexivity.
Qed.

Variable batch : list Transaction.

Lemma innerLoop_unfold (tx : Transaction) :
  forall (fuel j : nat) (acc : list FraudResult),
    j + fuel <= length batch ->
    innerLoop config batch tx fuel j acc
    = acc ++ flat_map (resultsOfPairTx config batch tx) (seq j fuel).
Proof.
  induction fuel as [|fuel IH]; intros j acc Hle; simpl.
  - now rewrite app_nil_r.
  - assert (Hj : j < length batch) by lia.
    apply Nat.ltb_lt in Hj as Hb. rewrite Hb.
    unfold resultsOfPairTx at 1.
    destruct (nth_error batch j) as [nextTx|] eqn:Hn.
    + rewrite IH by lia.
      rewrite rapidSuccession_appends, <- app_assoc. reflexivity.
    + apply nth_error_None in Hn. lia.
Qed.

Lemma outerLoop_unfold :
  forall (fuel i : nat) (acc : list FraudResult),
    i + fuel <= length batch ->
    outerLoop config batch fuel i acc
    = acc ++ flat_map (resultsAt config batch) (seq i fuel).
Proof.
  induction fuel as [|fuel IH]; intros i acc Hle; simpl.
  - now rewrite app_nil_r.
  - unfold resultsAt at 1, resultsUpTo, resultsOfHigh, resultsOfPair.
    destruct (nth_error batch i) as [tx|] eqn:Hn.
    + rewrite IH by lia.
      rewrite innerLoop_unfold by lia.
      rewrite highAmount_appends, <- !app_assoc.
      replace (i + 1) with (S i) by lia. reflexivity.
    + apply nth_error_None in Hn. lia.
Qed.

Lemma processBatch_unfold :
  processBatch batch config
  = flat_map (resultsAt config batch) (seq 0 (length batch)).
Proof.
  unfold processBatch. now rewrite outerLoop_unfold.
Qed.

(** The output split at the outer iteration [i]. *)
Lemma processBatch_split_at (i : nat) :
  i < length batch ->
  processBatch batch config
  = flat_map (resultsAt config batch) (seq 0 i)
      ++ resultsAt config batch i
      ++ flat_map (resultsAt config batch) (seq (S i) (length batch - S i)).
Proof.
  intros Hi. rewrite processBatch_unfold.
  replace (length batch) with (i + S (length batch - S i)) at 1 by lia.
  rewrite seq_app, flat_map_app. simpl. reflexivity.
Qed.

(** The inner scan of iteration [i] split at [j]. *)
Lemma scan_split_at (i j : nat) :
  i < j -> j < length batch ->
  flat_map (resultsOfPair config batch i) (seq (S i) (length batch - S i))
  = flat_map (resultsOfPair config batch i) (seq (S i) (j - S i))
      ++ resultsOfPair config batch i j
      ++ flat_map (resultsOfPair config batch i) (seq (S j) (length batch - S j)).
Proof.
  intros Hij Hj.
  replace (length batch - S i) with ((j - S i) + S (length batch - S j)) by lia.
  rewrite seq_app, flat_map_app.
  replace (S i + (j - S i)) with j by lia. simpl. reflexivity.
Qed.

End Loops.

(** ** The two rules *)

Section Rules.

Variable config : Config.

(** On a window that is a [Duration], the saturation of [Sub] does not
    show in the test of rule 2. *)
Lemma Sub_in_window (t u : Time) :
  (TimeWindow config <= maxDuration)%Z ->
  (Sub t u <? TimeWindow config)%Z && (Sub t u >? 0)%Z = true
  <-> (0 < t - u < TimeWindow config)%Z.
Proof.
  intros HW. unfold Sub, minDuration, maxDuration in *.
  rewrite andb_true_iff, Z.ltb_lt, Z.gtb_ltb, Z.ltb_lt.
  destruct (Z.ltb_spec (t - u) (- 2 ^ 63)); [lia|].
  destruct (Z.ltb_spec (2 ^ 63 - 1) (t - u)); lia.
Qed.

Lemma Sub_exact (t u : Time) :
  (minDuration <= t - u <= maxDuration)%Z -> Sub t u = (t - u)%Z.
Proof.
  intros H. unfold Sub.
  destruct (Z.ltb_spec (t - u) minDuration); [lia|].
  destruct (Z.ltb_spec maxDuration (t - u)); [lia|reflexivity].
Qed.

Lemma rapidSuccession_fires (tx nextTx : Transaction) :
  AccountID tx = AccountID nextTx ->
  (TimeWindow config <= maxDuration)%Z ->
  (0 < Timestamp nextTx - Timestamp tx < TimeWindow config)%Z ->
  rapidSuccession config tx nextTx []
  = [mkFraudResult tx
       (rapidEarlierReason (Timestamp nextTx - Timestamp tx)%Z nextTx);
     mkFraudResult nextTx
       (rapidLaterReason tx (Timestamp nextTx - Timestamp tx)%Z)].
Proof.
  intros Hacc HW Hd. unfold rapidSuccession.
  rewrite Hacc, String.eqb_refl. cbv zeta. simpl negb. cbv iota.
  rewrite (proj2 (Sub_in_window _ _ HW) Hd).
  rewrite Sub_exact by (unfold minDuration, maxDuration in *; lia).
  reflexivity.
Qed.

Lemma rapidSuccession_silent (tx nextTx : Transaction) :
  (TimeWindow config <= maxDuration)%Z ->
  ~ (0 < Timestamp nextTx - Timestamp tx < TimeWindow config)%Z ->
  rapidSuccession config tx nextTx [] = [].
Proof.
  intros HW Hd. rule2_cases; try reflexivity.
  match goal with
  | E : _ && _ = true |- _ => apply (Sub_in_window _ _ HW) in E
  end.
  contradiction.
Qed.

(** A float is not greater than one it is equal to. *)
Lemma gt_irrefl_eq (x y : float64) : SFeqb x y = true -> gt x y = false.
Proof.
  unfold gt, SFeqb, SFltb.
  destruct x as [[]|[]| |[] mx ex], y as [[]|[]| |[] my ey]; simpl;
    try discriminate; try reflexivity;
    (destruct (ex ?= ey)%Z eqn:He; try discriminate;
     apply Z.compare_eq in He; subst ey; rewrite Z.compare_refl;
     change (Pos.compare_cont Eq mx my) with (mx ?= my)%positive;
     change (Pos.compare_cont Eq my mx) with (my ?= mx)%positive;
     destruct (mx ?= my)%positive eqn:Hm; try discriminate;
     apply Pos.compare_eq in Hm; subst my; rewrite Pos.compare_refl;
     reflexivity).
Qed.

End Rules.

(** ** Lists *)

Section ListFacts.

Context {A B C : Type}.

Lemma flat_map_ext_in (f g : A -> list B) (l : list A) :
  (forall a, In a l -> f a = g a) -> flat_map f l = flat_map g l.
Proof.
  induction l as [|a l IH]; intros H; simpl.
  - reflexivity.
  - rewrite (H a) by now left.
    rewrite IH; [reflexivity|]. intros b Hb. apply H. now right.
Qed.

Lemma flat_map_map (f : A -> B) (g : B -> list C) (l : list A) :
  flat_map g (map f l) = flat_map (fun a => g (f a)) l.
Proof.
  induction l as [|a l IH]; simpl; [reflexivity|now rewrite IH].
Qed.

Lemma flat_map_flat_map (f : A -> list B) (g : B -> list C) (l : list A) :
  flat_map g (flat_map f l) = flat_map (fun a => flat_map g (f a)) l.
Proof.
  induction l as [|a l IH]; simpl; [reflexivity|].
  now rewrite flat_map_app, IH.
Qed.

Lemma flat_map_nil (f : A -> list B) (l : list A) :
  (forall a, In a l -> f a = []) -> flat_map f l = [].
Proof.
  induction l as [|a l IH]; intros H; simpl; [reflexivity|].
  rewrite (H a) by now left. apply IH. intros b Hb. apply H. now right.
Qed.

Lemma fold_left_app_flat_map (f : A -> list B) (l : list A) (acc : list B) :
  fold_left (fun r a => r ++ f a) l acc = acc ++ flat_map f l.
Proof.
  revert acc. induction l as [|a l IH]; intros acc; simpl.
  - now rewrite app_nil_r.
  - now rewrite IH, app_assoc.
Qed.

Lemma In_slice (s : list A) (lo hi : nat) (x : A) :
  In x (slice s lo hi) -> In x s.
Proof.
  unfold slice. intros H.
  apply In_nth_error in H as [n Hn].
  rewrite nth_error_firstn in Hn.
  destruct (n <? hi - lo); [|discriminate].
  rewrite nth_error_skipn in Hn. eapply nth_error_In, Hn.
Qed.

End ListFacts.

Lemma seq_add_map (c start len : nat) :
  map (fun x => c + x) (seq start len) = seq (c + start) len.
Proof.
  revert start. induction len as [|len IH]; intros start; simpl.
  - reflexivity.
  - f_equal. rewrite IH. f_equal. lia.
Qed.

(** ** The partition *)

Section BatchingFacts.

Variable size : nat.
Variable transactions : list Transaction.

Lemma batchAt_slice (k : nat) :
  batchAt size transactions k
  = slice transactions (k * size) (Nat.min (k * size + size) (length transactions)).
Proof.
  unfold batchAt.
  destruct (Nat.ltb_spec (length transactions) (k * size + size)).
  - now rewrite Nat.min_r by lia.
  - now rewrite Nat.min_l by lia.
Qed.

Lemma batchAt_length (k : nat) :
  length (batchAt size transactions k)
  = Nat.min size (length transactions - k * size).
Proof.
  rewrite batchAt_slice. unfold slice.
  rewrite length_firstn, length_skipn. lia.
Qed.

Lemma batchAt_nth_error (k i : nat) :
  i < size ->
  nth_error (batchAt size transactions k) i
  = nth_error transactions (k * size + i).
Proof.
  intros Hi. rewrite batchAt_slice. unfold slice.
  rewrite nth_error_firstn, nth_error_skipn.
  destruct (Nat.ltb_spec i
              (Nat.min (k * size + size) (length transactions) - k * size))
    as [Hlt|Hge].
  - reflexivity.
  - symmetry. apply nth_error_None. lia.
Qed.

Lemma In_batchAt (k : nat) (tx : Transaction) :
  In tx (batchAt size transactions k) -> In tx transactions.
Proof. unfold batchAt. apply In_slice. Qed.

Lemma batches_prefix (k : nat) :
  concat (map (batchAt size transactions) (seq 0 k))
  = firstn (k * size) transactions.
Proof.
  induction k as [|k IH].
  - reflexivity.
  - replace (S k) with (k + 1) at 1 by lia.
    rewrite seq_app, map_app, concat_app, IH. simpl.
    rewrite app_nil_r, batchAt_slice. unfold slice.
    destruct (Nat.le_gt_cases (k * size + size) (length transactions))
      as [Hle|Hgt].
    + rewrite Nat.min_l by lia.
      replace (k * size + size - k * size) with size by lia.
      rewrite firstn_skipn_comm.
      replace (firstn (k * size) transactions)
        with (firstn (k * size) (firstn (k * size + size) transactions)).
      * rewrite firstn_skipn. f_equal. lia.
      * rewrite firstn_firstn. f_equal. lia.
    + rewrite Nat.min_r by lia.
      rewrite (firstn_all2 (n := size + k * size)) by lia.
      rewrite (firstn_all2 (n := length transactions - k * size))
        by (rewrite length_skipn; lia).
      apply firstn_skipn.
Qed.

Lemma positions_prefix (k : nat) :
  flat_map (fun b => map (fun i => b * size + i)
                       (seq 0 (length (batchAt size transactions b))))
    (seq 0 k)
  = seq 0 (Nat.min (k * size) (length transactions)).
Proof.
  induction k as [|k IH].
  - reflexivity.
  - replace (S k) with (k + 1) at 1 by lia.
    rewrite seq_app, flat_map_app, IH. simpl.
    rewrite app_nil_r, seq_add_map, batchAt_length, Nat.add_0_r.
    destruct (Nat.le_gt_cases (k * size) (length transactions)) as [Hle|Hgt].
    + rewrite (Nat.min_l (k * size)) by lia.
      rewrite <- (seq_app (k * size)). f_equal. lia.
    + replace (Nat.min size (length transactions - k * size)) with 0 by lia.
      simpl. rewrite app_nil_r. f_equal. lia.
Qed.

Hypothesis size_pos : 0 < size.

Lemma numBatches_spec (n : nat) :
  numBatches size n = n / size + (if n mod size =? 0 then 0 else 1).
Proof.
  unfold numBatches. destruct (n mod size =? 0); simpl; lia.
Qed.

Lemma numBatches_ceil (n : nat) : numBatches size n = ceilDiv n size.
Proof.
  rewrite numBatches_spec. unfold ceilDiv.
  pose proof (Nat.div_mod_eq n size) as E.
  pose proof (Nat.mod_upper_bound n size ltac:(lia)) as Hr.
  set (q := n / size) in *. set (r := n mod size) in *.
  destruct (Nat.eqb_spec r 0) as [Hz|Hnz].
  - rewrite Nat.add_0_r.
    apply Nat.div_unique with (r := size - 1); lia.
  - apply Nat.div_unique with (r := r - 1); lia.
Qed.

Lemma numBatches_covers (n : nat) : n <= numBatches size n * size.
Proof.
  rewrite numBatches_spec.
  pose proof (Nat.div_mod_eq n size) as E.
  pose proof (Nat.mod_upper_bound n size ltac:(lia)) as Hr.
  destruct (Nat.eqb_spec (n mod size) 0); nia.
Qed.

Lemma numBatches_tight (n k : nat) : k < numBatches size n -> k * size < n.
Proof.
  rewrite numBatches_spec.
  pose proof (Nat.div_mod_eq n size) as E.
  pose proof (Nat.mod_upper_bound n size ltac:(lia)) as Hr.
  destruct (Nat.eqb_spec (n mod size) 0); nia.
Qed.

Lemma partition_concat : concat (partition size transactions) = transactions.
Proof.
  unfold partition. rewrite batches_prefix.
  apply firstn_all2, numBatches_covers.
Qed.

Lemma positions_by_batch :
  flat_map (fun b => map (fun i => b * size + i)
                       (seq 0 (length (batchAt size transactions b))))
    (seq 0 (numBatches size (length transactions)))
  = seq 0 (length transactions).
Proof.
  rewrite positions_prefix. f_equal.
  pose proof (numBatches_covers (length transactions)). lia.
Qed.

End BatchingFacts.

(** ** The scheduler *)

Section SchedulerFacts.

Variable size : nat.
Variable transactions : list Transaction.
Variable config : Config.

Lemma detectFraudWith_flat_map (sched : list nat) :
  detectFraudWith size sched transactions config
  = flat_map (fun i => processBatch (batchAt size transactions i) config) sched.
Proof.
  unfold detectFraudWith, worker.
  now rewrite fold_left_app_flat_map.
Qed.

Lemma detectFraudWith_canonical (sched : list nat) :
  schedule size transactions sched ->
  Permutation (detectFraudWith size sched transactions config)
    (concat (map (fun batch => processBatch batch config)
               (partition size transactions))).
Proof.
  intros Hs. rewrite detectFraudWith_flat_map.
  unfold partition. rewrite map_map, <- flat_map_concat_map.
  now apply Permutation_flat_map.
Qed.

Hypothesis size_pos : 0 < size.

Lemma position_in_batch (k i : nat) : i < size -> (k * size + i) / size = k.
Proof.
  intros Hi. symmetry. apply Nat.div_unique with (r := i); lia.
Qed.

Lemma resultsAt_batchAt (k i : nat) :
  i < length (batchAt size transactions k) ->
  resultsAt config (batchAt size transactions k) i
  = resultsUpTo config transactions
      (batchEnd size (length transactions) (k * size + i)) (k * size + i).
Proof.
  intros Hi. pose proof (batchAt_length size transactions k) as Hlen.
  assert (His : i < size) by lia.
  unfold resultsAt, resultsUpTo, batchEnd.
  rewrite (position_in_batch k i His). f_equal.
  - unfold resultsOfHigh. now rewrite batchAt_nth_error.
  - replace (Nat.min ((k + 1) * size) (length transactions) - S (k * size + i))
      with (length (batchAt size transactions k) - S i) by lia.
    replace (S (k * size + i)) with (k * size + S i) by lia.
    rewrite <- seq_add_map, flat_map_map.
    apply flat_map_ext_in. intros j Hj. apply in_seq in Hj.
    unfold resultsOfPair, resultsOfPairTx.
    rewrite !batchAt_nth_error by lia. reflexivity.
Qed.

Lemma processBatch_batchAt (k : nat) :
  processBatch (batchAt size transactions k) config
  = flat_map
      (fun p => resultsUpTo config transactions
                  (batchEnd size (length transactions) p) p)
      (map (fun i => k * size + i)
         (seq 0 (length (batchAt size transactions k)))).
Proof.
  rewrite processBatch_unfold, flat_map_map.
  apply flat_map_ext_in. intros i Hi. apply in_seq in Hi.
  apply resultsAt_batchAt. lia.
Qed.

Lemma detectFraudWith_by_position (sched : list nat) :
  schedule size transactions sched ->
  Permutation (detectFraudWith size sched transactions config)
    (flat_map
       (fun p => resultsUpTo config transactions
                   (batchEnd size (length transactions) p) p)
       (seq 0 (length transactions))).
Proof.
  intros Hs. rewrite detectFraudWith_flat_map.
  etransitivity; [apply Permutation_flat_map, Hs|].
  rewrite <- (positions_by_batch size transactions size_pos).
  rewrite flat_map_flat_map.
  erewrite flat_map_ext; [reflexivity|].
  intros k. apply processBatch_batchAt.
Qed.

End SchedulerFacts.

(** ** The run over a store computes the run over lists *)

Section StoreFacts.

Variable config : Config.
Variable h : Store.Heap.

Lemma view_length (s : Store.Slice) :
  Store.ptr s + Store.len s <= length h ->
  length (Store.view h s) = Store.len s.
Proof.
  intros Hs. unfold Store.view. rewrite length_firstn, length_skipn. lia.
Qed.

Lemma view_nth_error (s : Store.Slice) (j : nat) :
  j < Store.len s ->
  nth_error (Store.view h s) j = nth_error h (Store.ptr s + j).
Proof.
  intros Hj. unfold Store.view.
  rewrite nth_error_firstn, nth_error_skipn.
  apply Nat.ltb_lt in Hj. now rewrite Hj.
Qed.

Lemma store_index (s : Store.Slice) (j : nat) :
  Store.ptr s + Store.len s <= length h ->
  j < Store.len s ->
  exists tx, nth_error (Store.view h s) j = Some tx
             /\ Store.index s j h = Some (tx, h).
Proof.
  intros Hs Hj. rewrite view_nth_error by assumption.
  unfold Store.index. apply Nat.ltb_lt in Hj as Hb. rewrite Hb.
  destruct (nth_error h (Store.ptr s + j)) as [tx|] eqn:Hn.
  - now exists tx.
  - apply nth_error_None in Hn. lia.
Qed.

Section Batch.

Variable batch : Store.Slice.
Hypothesis batch_in_store : Store.ptr batch + Store.len batch <= length h.

Lemma store_innerLoop (tx : Transaction) :
  forall (fuel j : nat) (acc : list FraudResult),
    Store.innerLoop config batch tx fuel j acc h
    = Some (innerLoop config (Store.view h batch) tx fuel j acc, h).
Proof.
  induction fuel as [|fuel IH]; intros j acc; simpl.
  - reflexivity.
  - rewrite view_length by assumption.
    destruct (Nat.ltb_spec j (Store.len batch)) as [Hj|Hj].
    + destruct (store_index batch j batch_in_store Hj) as (nextTx & Hn & Hi).
      unfold Store.bind. rewrite Hi, Hn. apply IH.
    + reflexivity.
Qed.

Lemma store_outerLoop :
  forall (fuel i : nat) (acc : list FraudResult),
    Store.outerLoop config batch fuel i acc h
    = Some (outerLoop config (Store.view h batch) fuel i acc, h).
Proof.
  induction fuel as [|fuel IH]; intros i acc; simpl.
  - reflexivity.
  - destruct (Nat.ltb_spec i (Store.len batch)) as [Hi|Hi].
    + destruct (store_index batch i batch_in_store Hi) as (tx & Hn & Hx).
      unfold Store.bind. rewrite Hx, Hn, store_innerLoop.
      rewrite view_length by assumption. apply IH.
    + assert (Hn : nth_error (Store.view h batch) i = None)
        by (apply nth_error_None; rewrite view_length; assumption).
      now rewrite Hn.
Qed.

Lemma store_processBatch :
  Store.processBatch batch config h
  = Some (processBatch (Store.view h batch) config, h).
Proof.
  unfold Store.processBatch, processBatch.
  rewrite store_outerLoop, view_length by assumption. reflexivity.
Qed.

End Batch.

Variable size : nat.

Lemma view_batchSlice (k : nat) :
  Store.view h (Store.batchSlice size (Store.whole h) k) = batchAt size h k.
Proof.
  rewrite batchAt_slice. reflexivity.
Qed.

Lemma batchSlice_in_store (k : nat) :
  k * size <= length h ->
  Store.ptr (Store.batchSlice size (Store.whole h) k)
    + Store.len (Store.batchSlice size (Store.whole h) k) <= length h.
Proof. simpl. lia. Qed.

Hypothesis size_pos : 0 < size.

Lemma store_spawn :
  forall fuel i : nat,
    i + fuel <= numBatches size (length h) ->
    Store.spawn size (Store.whole h) fuel i h
    = Some (map (Store.batchSlice size (Store.whole h)) (seq i fuel), h).
Proof.
  induction fuel as [|fuel IH]; intros i Hle; simpl.
  - reflexivity.
  - assert (Hi : i * size < length h)
      by (apply (numBatches_tight size size_pos); lia).
    unfold Store.bind, Store.reslice. simpl.
    destruct (Nat.ltb_spec (length h) (i * size + size)) as [Hlt|Hge].
    + replace ((i * size <=? length h) && (length h <=? length h)) with true
        by (symmetry; apply andb_true_iff; split; apply Nat.leb_le; lia).
      rewrite IH by lia. unfold Store.ret, Store.batchSlice. simpl.
      rewrite Nat.min_r by lia. reflexivity.
    + replace ((i * size <=? i * size + size) && (i * size + size <=? length h))
        with true
        by (symmetry; apply andb_true_iff; split; apply Nat.leb_le; lia).
      rewrite IH by lia. unfold Store.ret, Store.batchSlice. simpl.
      rewrite Nat.min_l by lia. reflexivity.
Qed.

Lemma store_join :
  forall (sched : list nat) (acc : list FraudResult),
    (forall k, In k sched -> k < numBatches size (length h)) ->
    Store.join config
      (map (Store.batchSlice size (Store.whole h))
         (seq 0 (numBatches size (length h)))) sched acc h
    = Some (fold_left (worker size h config) sched acc, h).
Proof.
  induction sched as [|k sched IH]; intros acc Hin; simpl.
  - reflexivity.
  - assert (Hk : k < numBatches size (length h)) by (apply Hin; now left).
    rewrite nth_error_map, nth_error_seq.
    apply Nat.ltb_lt in Hk as Hb. rewrite Hb. simpl.
    unfold Store.bind.
    rewrite store_processBatch.
    + rewrite view_batchSlice. unfold worker at 2.
      apply IH. intros k' Hk'. apply Hin. now right.
    + apply batchSlice_in_store.
      pose proof (numBatches_tight size size_pos (length h) k Hk). lia.
Qed.

Lemma store_detectFraudWith (sched : list nat) :
  schedule size h sched ->
  Store.detectFraudWith size sched (Store.whole h) config h
  = Some (detectFraudWith size sched h config, h).
Proof.
  intros Hs. unfold Store.detectFraudWith, Store.bind. simpl.
  rewrite store_spawn by lia.
  apply store_join. intros k Hk.
  apply (Permutation_in _ Hs), in_seq in Hk. lia.
Qed.

End StoreFacts.

(** ** Rule B: rapid succession *)

(** C1. In every batch and under every configuration, take positions
    [i < j] whose transactions share the account identifier. The output of
    the rule engine is the results appended before the iteration at [(i, j)],
    then the results of that pair, then the results appended after it. The
    pair has exactly two results when [0 < timestamp(j) - timestamp(i) <
    timeWindow]: first one for the transaction at [i], whose reason gives the
    elapsed time and the later transaction's amount, then one for the
    transaction at [j], whose reason gives the earlier transaction's amount
    and the elapsed time. It has none when the difference is zero, negative,
    or at least the window. The window is a [Duration], so at most
    [maxDuration]. *)
Theorem rapid_succession_pair
  (batch : list Transaction) (config : Config) (i j : nat)
  (tx nextTx : Transaction) :
  i < j ->
  nth_error batch i = Some tx ->
  nth_error batch j = Some nextTx ->
  AccountID tx = AccountID nextTx ->
  (TimeWindow config <= maxDuration)%Z ->
  let diff := (Timestamp nextTx - Timestamp tx)%Z in
  processBatch batch config
  = resultsBeforePair config batch i j
      ++ resultsOfPair config batch i j
      ++ resultsAfterPair config batch i j
  /\ ((0 < diff < TimeWindow config)%Z ->
      resultsOfPair config batch i j
      = [mkFraudResult tx
           ("Rapid transaction: " ++ DurationString diff
              ++ " later with $" ++ formatFloat2 (Amount nextTx))%string;
         mkFraudResult nextTx
           ("Rapid transaction: following $" ++ formatFloat2 (Amount tx)
              ++ " after " ++ DurationString diff)%string])
  /\ ((diff <= 0 \/ TimeWindow config <= diff)%Z ->
      resultsOfPair config batch i j = [])
  /\ (length (resultsOfPair config batch i j) = 2
      <-> (0 < diff < TimeWindow config)%Z).
Proof.
  intros Hij Hi Hj Hacc HW diff.
  assert (Hlen : j < length batch) by (apply nth_error_Some; congruence).
  assert (Hpair : resultsOfPair config batch i j
                  = rapidSuccession config tx nextTx []).
  { unfold resultsOfPair, resultsOfPairTx. now rewrite Hi, Hj. }
  assert (Hfire : (0 < diff < TimeWindow config)%Z ->
                  resultsOfPair config batch i j
                  = [mkFraudResult tx (rapidEarlierReason diff nextTx);
                     mkFraudResult nextTx (rapidLaterReason tx diff)]).
  { intros Hd. rewrite Hpair. now apply rapidSuccession_fires. }
  assert (Hnone : ~ (0 < diff < TimeWindow config)%Z ->
                  resultsOfPair config batch i j = []).
  { intros Hd. rewrite Hpair. now apply rapidSuccession_silent. }
  split; [|split; [|split; [|split]]].
  - rewrite (processBatch_split_at config batch i) by lia.
    unfold resultsAt at 2, resultsUpTo.
    rewrite (scan_split_at config batch i j Hij Hlen).
    unfold resultsBeforePair, resultsAfterPair.
    now rewrite <- !app_assoc.
  - exact Hfire.
  - intros Hd. apply Hnone. lia.
  - intros Hl.
    destruct (Z_lt_dec 0 diff) as [H0|H0];
      [|rewrite Hnone in Hl by lia; discriminate].
    destruct (Z_lt_dec diff (TimeWindow config)) as [H1|H1];
      [|rewrite Hnone in Hl by lia; discriminate].
    lia.
  - intros Hd. now rewrite (Hfire Hd).
Qed.

Lemma rapid_succession_pair_witness :
  0 < 1
  /\ nth_error [Scenario.a1; Scenario.a2] 0 = Some Scenario.a1
  /\ nth_error [Scenario.a1; Scenario.a2] 1 = Some Scenario.a2
  /\ AccountID Scenario.a1 = AccountID Scenario.a2
  /\ (TimeWindow Scenario.config <= maxDuration)%Z
  /\ processBatch [Scenario.a1; Scenario.a2] Scenario.config
     = resultsBeforePair Scenario.config [Scenario.a1; Scenario.a2] 0 1
         ++ resultsOfPair Scenario.config [Scenario.a1; Scenario.a2] 0 1
         ++ resultsAfterPair Scenario.config [Scenario.a1; Scenario.a2] 0 1.
Proof.
  assert (H01 : 0 < 1) by lia.
  assert (HW : (TimeWindow Scenario.config <= maxDuration)%Z)
    by (vm_compute; discriminate).
  split; [exact H01|].
  split; [reflexivity|].
  split; [reflexivity|].
  split; [reflexivity|].
  split; [exact HW|].
  exact (proj1 (rapid_succession_pair [Scenario.a1; Scenario.a2]
                  Scenario.config 0 1 Scenario.a1 Scenario.a2
                  H01 eq_refl eq_refl eq_refl HW)).
Defined.

(** Scenario A: two results, both for rapid succession, none for a high
    amount. *)
Example scenario_A :
  processBatch [Scenario.a1; Scenario.a2] Scenario.config
  = [mkFraudResult Scenario.a1 "Rapid transaction: 2m0s later with $60.00";
     mkFraudResult Scenario.a2 "Rapid transaction: following $50.00 after 2m0s"].
Proof. vm_compute. reflexivity. Qed.

(** ** Rule A: high amount *)

Lemma resultsOfHighTx_fires (config : Config) (tx : Transaction) :
  gt (Amount tx) (HighAmountThreshold config) = true ->
  resultsOfHighTx config tx = [mkFraudResult tx (highAmountReason tx)].
Proof.
  intros H. unfold resultsOfHighTx, highAmount. now rewrite H.
Qed.

Lemma resultsOfHighTx_silent (config : Config) (tx : Transaction) :
  gt (Amount tx) (HighAmountThreshold config) = false ->
  resultsOfHighTx config tx = [].
Proof.
  intros H. unfold resultsOfHighTx, highAmount. now rewrite H.
Qed.

Lemma resultsOfHighTx_shape (config : Config) (tx : Transaction) :
  resultsOfHighTx config tx = []
  \/ resultsOfHighTx config tx = [mkFraudResult tx (highAmountReason tx)].
Proof.
  destruct (gt (Amount tx) (HighAmountThreshold config)) eqn:E.
  - right. now apply resultsOfHighTx_fires.
  - left. now apply resultsOfHighTx_silent.
Qed.

(** C2. For every transaction of a batch, at position [i], the output of the
    rule engine is the results of the earlier iterations, then the result of
    the high-amount rule for that transaction, then the rest. The rule has
    exactly one result when [amount > highAmountThreshold], with the reason
    ["High amount: $"] followed by the amount to two decimal places, and none
    otherwise; an amount equal to the threshold has none. A single transaction
    of 1500 against a threshold of 1000 has exactly one result, whose reason
    is ["High amount: $1500.00"]. *)
Theorem high_amount_rule
  (batch : list Transaction) (config : Config) (i : nat) (tx : Transaction) :
  nth_error batch i = Some tx ->
  processBatch batch config
  = flat_map (resultsAt config batch) (seq 0 i)
      ++ resultsOfHigh config batch i
      ++ resultsAfterHigh config batch i
  /\ (gt (Amount tx) (HighAmountThreshold config) = true ->
      resultsOfHigh config batch i
      = [mkFraudResult tx
           ("High amount: $" ++ formatFloat2 (Amount tx))%string])
  /\ (gt (Amount tx) (HighAmountThreshold config) = false ->
      resultsOfHigh config batch i = [])
  /\ (SFeqb (Amount tx) (HighAmountThreshold config) = true ->
      resultsOfHigh config batch i = [])
  /\ (forall (id account merchant out : string) (t : Time) (window : Duration),
         processBatch [mkTransaction id (ofZ 1500) t account merchant]
           (mkConfig (ofZ 1000) window out)
         = [mkFraudResult (mkTransaction id (ofZ 1500) t account merchant)
              "High amount: $1500.00"]).
Proof.
  intros Hi.
  assert (Hlen : i < length batch) by (apply nth_error_Some; congruence).
  assert (Hhigh : resultsOfHigh config batch i = resultsOfHighTx config tx)
    by (unfold resultsOfHigh; now rewrite Hi).
  split; [|split; [|split; [|split]]].
  - rewrite (processBatch_split_at config batch i Hlen).
    unfold resultsAt at 2, resultsUpTo, resultsAfterHigh.
    now rewrite <- !app_assoc.
  - intros H. rewrite Hhigh. now apply resultsOfHighTx_fires.
  - intros H. rewrite Hhigh. now apply resultsOfHighTx_silent.
  - intros H. rewrite Hhigh. now apply resultsOfHighTx_silent, gt_irrefl_eq.
  - intros. vm_compute. reflexivity.
Qed.

Lemma high_amount_rule_witness :
  nth_error [Scenario.b1] 0 = Some Scenario.b1
  /\ resultsOfHigh Scenario.config [Scenario.b1] 0
     = [mkFraudResult Scenario.b1 "High amount: $1500.00"].
Proof.
  split; [reflexivity|].
  exact (proj1 (proj2 (high_amount_rule [Scenario.b1] Scenario.config 0
                         Scenario.b1 eq_refl)) eq_refl).
Defined.

(** Scenario B. *)
Example scenario_B :
  processBatch [Scenario.b1] Scenario.config
  = [mkFraudResult Scenario.b1 "High amount: $1500.00"].
Proof. vm_compute. reflexivity. Qed.

(** ** The order of a batch's results *)

(** C10. The result sequence of a batch is, for each position [i] in
    ascending order, the high-amount result for [i], if any, followed by the
    results of the pairs [(i, j)] in ascending order of [j > i]. Position [i]
    has its high-amount result exactly when its amount exceeds the threshold.
    A pair has results exactly when it qualifies, that is when the two
    transactions share the account and the time from the earlier to the later
    one is above zero and below the window: it then has two adjacent results,
    the one for the earlier transaction first, then the one for the later
    transaction. A pair that does not qualify has none. *)
Theorem batch_results_order (batch : list Transaction) (config : Config) :
  processBatch batch config
  = flat_map
      (fun i =>
         resultsOfHigh config batch i
           ++ flat_map (resultsOfPair config batch i)
                (seq (S i) (length batch - S i)))
      (seq 0 (length batch))
  /\ (forall (i : nat) (tx : Transaction),
         nth_error batch i = Some tx ->
         resultsOfHigh config batch i
         = if gt (Amount tx) (HighAmountThreshold config) then
             [mkFraudResult tx (highAmountReason tx)]
           else [])
  /\ (forall (i j : nat) (tx nextTx : Transaction),
         nth_error batch i = Some tx ->
         nth_error batch j = Some nextTx ->
         let timeDiff := Sub (Timestamp nextTx) (Timestamp tx) in
         resultsOfPair config batch i j
         = if (AccountID nextTx =? AccountID tx)%string
              && ((timeDiff <? TimeWindow config)%Z && (0 <? timeDiff)%Z)
           then
             [mkFraudResult tx (rapidEarlierReason timeDiff nextTx);
              mkFraudResult nextTx (rapidLaterReason tx timeDiff)]
           else []).
Proof.
  split; [|split].
  - apply processBatch_unfold.
  - intros i tx Hi. unfold resultsOfHigh. rewrite Hi.
    unfold resultsOfHighTx, highAmount.
    now destruct (gt (Amount tx) (HighAmountThreshold config)).
  - intros i j tx nextTx Hi Hj timeDiff. subst timeDiff.
    unfold resultsOfPair, resultsOfPairTx. rewrite Hi, Hj.
    rewrite <- (Z.gtb_ltb (Sub (Timestamp nextTx) (Timestamp tx)) 0).
    unfold rapidSuccession.
    destruct (AccountID nextTx =? AccountID tx)%string; simpl; [|reflexivity].
    now destruct ((Sub (Timestamp nextTx) (Timestamp tx) <? TimeWindow config)%Z
                  && (Sub (Timestamp nextTx) (Timestamp tx) >? 0)%Z).
Qed.

Lemma batch_results_order_witness :
  nth_error [Scenario.a1; Scenario.a2] 0 = Some Scenario.a1
  /\ nth_error [Scenario.a1; Scenario.a2] 1 = Some Scenario.a2
  /\ resultsOfPair Scenario.config [Scenario.a1; Scenario.a2] 0 1
     = [mkFraudResult Scenario.a1 "Rapid transaction: 2m0s later with $60.00";
        mkFraudResult Scenario.a2
          "Rapid transaction: following $50.00 after 2m0s"]
  /\ resultsOfPair Scenario.configZeroWindow [Scenario.a1; Scenario.a2] 0 1
     = [].
Proof.
  split; [reflexivity|]. split; [reflexivity|]. split.
  - exact (proj2 (proj2 (batch_results_order [Scenario.a1; Scenario.a2]
                           Scenario.config))
             0 1 Scenario.a1 Scenario.a2 eq_refl eq_refl).
  - exact (proj2 (proj2 (batch_results_order [Scenario.a1; Scenario.a2]
                           Scenario.configZeroWindow))
             0 1 Scenario.a1 Scenario.a2 eq_refl eq_refl).
Defined.

(** A burst of three transactions of one account, the first above the
    threshold: the order of the results. *)
Example burst_results_order :
  map Reason
    (processBatch
       [mkTransaction "1" (ofZ 1500) 0%Z "ACC" "A";
        mkTransaction "2" (ofZ 60) (1 * Minute)%Z "ACC" "B";
        mkTransaction "3" (ofZ 70) (2 * Minute)%Z "ACC" "C"]
       Scenario.config)
  = ["High amount: $1500.00";
     "Rapid transaction: 1m0s later with $60.00";
     "Rapid transaction: following $1500.00 after 1m0s";
     "Rapid transaction: 2m0s later with $70.00";
     "Rapid transaction: following $1500.00 after 2m0s";
     "Rapid transaction: 1m0s later with $70.00";
     "Rapid transaction: following $60.00 after 1m0s"]%string.
Proof. vm_compute. reflexivity. Qed.

(** ** The partitioner *)

(** C3. For a batch size [size > 0] and a sequence of length [L], the
    partition has [ceil(L / size)] batches; batch [k] is the contiguous
    range [k * size .. min (k * size + size) L] of the sequence; every batch
    is non-empty and at most [size] long, and every batch but the last is
    [size] long; a position lies in the range of exactly one batch; the
    batches concatenated in order are the sequence. The empty sequence has no
    batch, and the run on it returns no result. *)
Theorem partition_covers (size : nat) (transactions : list Transaction) :
  0 < size ->
  let L := length transactions in
  length (partition size transactions) = ceilDiv L size
  /\ concat (partition size transactions) = transactions
  /\ (forall k : nat,
         k < ceilDiv L size ->
         nth_error (partition size transactions) k
         = Some (slice transactions (k * size) (Nat.min (k * size + size) L))
         /\ k * size < Nat.min (k * size + size) L
         /\ (S k < ceilDiv L size -> Nat.min (k * size + size) L = k * size + size))
  /\ (forall p k : nat,
         p < L ->
         (k * size <= p < Nat.min (k * size + size) L <-> k = p / size))
  /\ partition size [] = []
  /\ (forall (sched : list nat) (config : Config),
         schedule size [] sched -> detectFraudWith size sched [] config = [])
  /\ (forall (sched : list nat) (config : Config),
         schedule batchSize [] sched -> detectFraud sched [] config = []).
Proof.
  intros Hpos L.
  assert (Hempty : forall (sz : nat) (sched : list nat) (config : Config),
             0 < sz -> schedule sz [] sched ->
             detectFraudWith sz sched [] config = []).
  { intros sz sched config Hsz Hs. unfold schedule in Hs. simpl in Hs.
    rewrite (numBatches_spec sz Hsz), Nat.Div0.div_0_l, Nat.Div0.mod_0_l in Hs.
    simpl in Hs. apply Permutation_sym, Permutation_nil in Hs.
    now subst sched. }
  split; [|split; [|split; [|split; [|split; [|split]]]]].
  - unfold partition. rewrite length_map, length_seq.
    now apply numBatches_ceil.
  - now apply partition_concat.
  - intros k Hk. rewrite <- (numBatches_ceil size Hpos) in *.
    pose proof (numBatches_tight size Hpos L k Hk) as Ht.
    split; [|split].
    + unfold partition. rewrite nth_error_map, nth_error_seq.
      apply Nat.ltb_lt in Hk. fold L. rewrite Hk. simpl.
      now rewrite batchAt_slice.
    + lia.
    + intros Hk'. pose proof (numBatches_tight size Hpos L (S k) Hk'). lia.
  - intros p k Hp. split.
    + intros [Hlo Hhi]. apply Nat.div_unique with (r := p - k * size); lia.
    + intros ->. pose proof (Nat.div_mod_eq p size).
      pose proof (Nat.mod_upper_bound p size ltac:(lia)). lia.
  - unfold partition. simpl.
    now rewrite (numBatches_spec size Hpos), Nat.Div0.div_0_l, Nat.Div0.mod_0_l.
  - intros sched config. now apply Hempty.
  - intros sched config. apply Hempty. unfold batchSize. lia.
Qed.

Lemma partition_covers_witness :
  0 < 2
  /\ map (map ID)
       (partition 2 [Scenario.c 0; Scenario.c 1; Scenario.c 2;
                     Scenario.c 3; Scenario.c 4])
     = [["0"; "1"]; ["2"; "3"]; ["4"]]%string
  /\ concat (partition 2 [Scenario.c 0; Scenario.c 1; Scenario.c 2;
                          Scenario.c 3; Scenario.c 4])
     = [Scenario.c 0; Scenario.c 1; Scenario.c 2; Scenario.c 3; Scenario.c 4].
Proof.
  assert (H2 : 0 < 2) by lia.
  split; [exact H2|]. split; [reflexivity|].
  exact (proj1 (proj2 (partition_covers 2
                         [Scenario.c 0; Scenario.c 1; Scenario.c 2;
                          Scenario.c 3; Scenario.c 4] H2))).
Defined.

(** Scenario D. *)
Example scenario_D (config : Config) : detectFraud [] [] config = [].
Proof. reflexivity. Qed.

(** ** Pairs across batches *)

Lemma same_batch_iff (size n p q : nat) :
  0 < size -> p < q < n ->
  In q (seq (S p) (batchEnd size n p - S p)) <-> p / size = q / size.
Proof.
  intros Hpos [Hpq Hq]. unfold batchEnd. rewrite in_seq.
  pose proof (Nat.div_mod_eq p size) as Ep.
  pose proof (Nat.mod_upper_bound p size ltac:(lia)) as Hp.
  pose proof (Nat.div_mod_eq q size) as Eq.
  pose proof (Nat.mod_upper_bound q size ltac:(lia)) as Hq'.
  split.
  - intros [_ Hlt].
    assert (H1 : q / size < p / size + 1)
      by (apply Nat.Div0.div_lt_upper_bound; lia).
    assert (H2 : p / size <= q / size)
      by (apply Nat.Div0.div_le_mono; lia).
    lia.
  - intros E. rewrite E. lia.
Qed.

(** C4. The results of a run are, up to the order in which the batches
    were merged, for each position [p] of the input in turn the high-amount
    result of [p] and the results of the pairs [(p, q)] for [q] from [p + 1]
    to the end of the batch that holds [p]. A pair of positions is evaluated
    exactly when both lie in the same batch: a pair across two batches has
    no result, whatever its accounts and timestamps. *)
Theorem cross_batch_pairs_not_evaluated
  (sched : list nat) (transactions : list Transaction) (config : Config) :
  schedule batchSize transactions sched ->
  let L := length transactions in
  Permutation (detectFraud sched transactions config)
    (flat_map
       (fun p =>
          resultsOfHigh config transactions p
            ++ flat_map (resultsOfPair config transactions p)
                 (seq (S p) (batchEnd batchSize L p - S p)))
       (seq 0 L))
  /\ (forall p q : nat,
         p < q < L ->
         In q (seq (S p) (batchEnd batchSize L p - S p))
         <-> p / batchSize = q / batchSize).
Proof.
  intros Hs L. assert (Hpos : 0 < batchSize) by (unfold batchSize; lia).
  split.
  - exact (detectFraudWith_by_position batchSize transactions config Hpos
             sched Hs).
  - intros p q Hpq. now apply same_batch_iff.
Qed.

(** Scenario C: the pair at positions 99 and 100 qualifies, lies across the
    two batches, and the run has no result. *)
Lemma cross_batch_pairs_not_evaluated_witness :
  schedule batchSize Scenario.transactionsC [1; 0]
  /\ map (@length Transaction) (partition batchSize Scenario.transactionsC)
     = [100; 50]
  /\ length (resultsOfPair Scenario.config Scenario.transactionsC 99 100) = 2
  /\ 99 / batchSize <> 100 / batchSize
  /\ detectFraud [1; 0] Scenario.transactionsC Scenario.config = [].
Proof.
  assert (Hs : schedule batchSize Scenario.transactionsC [1; 0])
    by apply perm_swap.
  split; [exact Hs|].
  split; [vm_compute; reflexivity|].
  split; [vm_compute; reflexivity|].
  split; [vm_compute; discriminate|].
  apply Permutation_nil, Permutation_sym.
  exact (proj1 (cross_batch_pairs_not_evaluated [1; 0]
                  Scenario.transactionsC Scenario.config Hs)).
Defined.

(** Scenario C under either order of the two batches. *)
Example scenario_C (sched : list nat) :
  schedule batchSize Scenario.transactionsC sched ->
  detectFraud sched Scenario.transactionsC Scenario.config = [].
Proof.
  intros Hs. unfold detectFraud. rewrite detectFraudWith_flat_map.
  apply flat_map_nil. intros k Hk.
  apply (Permutation_in _ Hs) in Hk.
  change (In k [0; 1]) in Hk.
  destruct Hk as [<-|[<-|[]]]; vm_compute; reflexivity.
Qed.

(** The same 150 transactions in one batch: the pair is found. *)
Example scenario_C_one_batch :
  map Reason (processBatch Scenario.transactionsC Scenario.config)
  = ["Rapid transaction: 1m0s later with $10.00";
     "Rapid transaction: following $10.00 after 1m0s"]%string.
Proof. vm_compute. reflexivity. Qed.

(** ** Runs and schedules *)

(** C6. Two runs on the same input and configuration, under any two
    schedules, return the same results as multisets: each is a permutation
    of the results of the batches taken in order, which the input, the batch
    size and the configuration determine. *)
Theorem detection_deterministic_as_multiset
  (sched1 sched2 : list nat) (transactions : list Transaction)
  (config : Config) :
  schedule batchSize transactions sched1 ->
  schedule batchSize transactions sched2 ->
  Permutation (detectFraud sched1 transactions config)
    (detectFraud sched2 transactions config)
  /\ Permutation (detectFraud sched1 transactions config)
       (concat (map (fun batch => processBatch batch config)
                  (partition batchSize transactions))).
Proof.
  intros H1 H2.
  pose proof (detectFraudWith_canonical batchSize transactions config sched1 H1)
    as P1.
  pose proof (detectFraudWith_canonical batchSize transactions config sched2 H2)
    as P2.
  split; [|exact P1].
  unfold detectFraud. now rewrite P1, P2.
Qed.

Lemma detection_deterministic_as_multiset_witness :
  schedule batchSize Scenario.transactionsD [0; 1]
  /\ schedule batchSize Scenario.transactionsD [1; 0]
  /\ length (detectFraud [0; 1] Scenario.transactionsD Scenario.config) = 101
  /\ detectFraud [0; 1] Scenario.transactionsD Scenario.config
     <> detectFraud [1; 0] Scenario.transactionsD Scenario.config
  /\ Permutation (detectFraud [0; 1] Scenario.transactionsD Scenario.config)
       (detectFraud [1; 0] Scenario.transactionsD Scenario.config).
Proof.
  assert (H1 : schedule batchSize Scenario.transactionsD [0; 1])
    by apply Permutation_refl.
  assert (H2 : schedule batchSize Scenario.transactionsD [1; 0])
    by apply perm_swap.
  split; [exact H1|]. split; [exact H2|].
  split; [vm_compute; reflexivity|].
  split; [vm_compute; discriminate|].
  exact (proj1 (detection_deterministic_as_multiset [0; 1] [1; 0]
                  Scenario.transactionsD Scenario.config H1 H2)).
Defined.

(** ** The input *)

(** C7. A run leaves the backing array of the caller's slice as it found
    it: over any store, under any schedule, the run completes, returns the
    results of the run over lists, and the store it returns is the store it
    was given, every field of every transaction included. *)
Theorem input_never_mutated
  (sched : list nat) (h : Store.Heap) (config : Config) :
  schedule batchSize h sched ->
  Store.detectFraud sched (Store.whole h) config h
  = Some (detectFraud sched h config, h).
Proof.
  intros Hs. unfold Store.detectFraud, detectFraud.
  apply store_detectFraudWith; [unfold batchSize; lia|exact Hs].
Qed.

Lemma input_never_mutated_witness :
  schedule batchSize Scenario.transactionsD [1; 0]
  /\ Store.detectFraud [1; 0] (Store.whole Scenario.transactionsD)
       Scenario.config Scenario.transactionsD
     = Some (detectFraud [1; 0] Scenario.transactionsD Scenario.config,
             Scenario.transactionsD).
Proof.
  assert (Hs : schedule batchSize Scenario.transactionsD [1; 0])
    by apply perm_swap.
  split; [exact Hs|].
  exact (input_never_mutated [1; 0] Scenario.transactionsD Scenario.config Hs).
Defined.

Lemma processBatch_results_in_batch (batch : list Transaction) (config : Config)
  (r : FraudResult) :
  In r (processBatch batch config) -> In (Tx r) batch.
Proof.
  rewrite processBatch_unfold. intros H.
  apply in_flat_map in H as (i & _ & H).
  unfold resultsAt, resultsUpTo, resultsOfHigh, resultsOfPair in H.
  destruct (nth_error batch i) as [tx|] eqn:Hi.
  - apply nth_error_In in Hi.
    apply in_app_or in H as [H|H].
    + destruct (resultsOfHighTx_shape config tx) as [E|E]; rewrite E in H.
      * destruct H.
      * destruct H as [<-|[]]. exact Hi.
    + apply in_flat_map in H as (j & _ & H).
      unfold resultsOfPairTx in H.
      destruct (nth_error batch j) as [nextTx|] eqn:Hj; [|destruct H].
      apply nth_error_In in Hj.
      rule2_cases_in H; try (destruct H; fail).
      destruct H as [<-|[<-|[]]]; assumption.
  - simpl in H. apply in_flat_map in H as (j & _ & []).
Qed.

(** C8. Every result of a run carries a transaction of the input
    sequence. *)
Theorem results_carry_input_transactions
  (sched : list nat) (transactions : list Transaction) (config : Config)
  (r : FraudResult) :
  schedule batchSize transactions sched ->
  In r (detectFraud sched transactions config) ->
  In (Tx r) transactions.
Proof.
  intros _ H. unfold detectFraud in H.
  rewrite detectFraudWith_flat_map in H.
  apply in_flat_map in H as (k & _ & H).
  apply processBatch_results_in_batch in H.
  eapply In_batchAt, H.
Qed.

Lemma results_carry_input_transactions_witness :
  schedule batchSize [Scenario.a1; Scenario.a2] [0]
  /\ In (mkFraudResult Scenario.a2
           "Rapid transaction: following $50.00 after 2m0s")
       (detectFraud [0] [Scenario.a1; Scenario.a2] Scenario.config)
  /\ In Scenario.a2 [Scenario.a1; Scenario.a2].
Proof.
  assert (Hs : schedule batchSize [Scenario.a1; Scenario.a2] [0])
    by apply Permutation_refl.
  assert (Hr : In (mkFraudResult Scenario.a2
                     "Rapid transaction: following $50.00 after 2m0s")
                 (detectFraud [0] [Scenario.a1; Scenario.a2] Scenario.config))
    by (vm_compute; right; left; reflexivity).
  split; [exact Hs|]. split; [exact Hr|].
  exact (results_carry_input_transactions [0] [Scenario.a1; Scenario.a2]
           Scenario.config _ Hs Hr).
Defined.

(** ** Non-positive windows *)

Lemma rapidSuccession_nonpositive_window
  (config : Config) (tx nextTx : Transaction) :
  (TimeWindow config <= 0)%Z -> rapidSuccession config tx nextTx [] = [].
Proof.
  intros HW. unfold rapidSuccession.
  destruct (negb (AccountID nextTx =? AccountID tx)%string); [reflexivity|].
  cbv zeta.
  destruct (Z.ltb_spec (Sub (Timestamp nextTx) (Timestamp tx)) (TimeWindow config));
    [|reflexivity].
  rewrite Z.gtb_ltb.
  destruct (Z.ltb_spec 0 (Sub (Timestamp nextTx) (Timestamp tx)));
    [lia|reflexivity].
Qed.

Lemma flat_map_positions {A B : Type} (f : A -> list B) (l : list A) :
  flat_map (fun i => match nth_error l i with Some a => f a | None => [] end)
    (seq 0 (length l))
  = flat_map f l.
Proof.
  induction l as [|a l IH]; simpl; [reflexivity|].
  rewrite <- seq_shift, flat_map_map. simpl. now rewrite IH.
Qed.

Lemma flat_map_concat {A B : Type} (f : A -> list B) (ls : list (list A)) :
  flat_map f (concat ls) = concat (map (flat_map f) ls).
Proof.
  induction ls as [|l ls IH]; simpl; [reflexivity|].
  now rewrite flat_map_app, IH.
Qed.

Lemma processBatch_nonpositive_window (batch : list Transaction) (config : Config) :
  (TimeWindow config <= 0)%Z ->
  processBatch batch config = flat_map (resultsOfHighTx config) batch.
Proof.
  intros HW. rewrite processBatch_unfold.
  rewrite <- (flat_map_positions (resultsOfHighTx config) batch).
  apply flat_map_ext. intros i.
  unfold resultsAt, resultsUpTo. fold (resultsOfHigh config batch i).
  rewrite flat_map_nil; [apply app_nil_r|].
  intros j _. unfold resultsOfPair, resultsOfPairTx.
  destruct (nth_error batch i); [|reflexivity].
  destruct (nth_error batch j); [|reflexivity].
  now apply rapidSuccession_nonpositive_window.
Qed.

(** C9. With a time window that is zero or negative the run does not
    fail: it completes, and its results are the high-amount results of the
    transactions of each batch, in the order the batches were merged; no
    pair has a result. *)
Theorem nonpositive_window_only_high_amount
  (sched : list nat) (transactions : list Transaction) (config : Config) :
  schedule batchSize transactions sched ->
  (TimeWindow config <= 0)%Z ->
  Store.detectFraud sched (Store.whole transactions) config transactions
  = Some (detectFraud sched transactions config, transactions)
  /\ detectFraud sched transactions config
     = flat_map
         (fun k => flat_map (resultsOfHighTx config)
                     (batchAt batchSize transactions k)) sched
  /\ Permutation (detectFraud sched transactions config)
       (flat_map (resultsOfHighTx config) transactions)
  /\ (forall (batch : list Transaction) (i j : nat),
         resultsOfPair config batch i j = []).
Proof.
  intros Hs HW.
  assert (Hpos : 0 < batchSize) by (unfold batchSize; lia).
  split; [|split; [|split]].
  - unfold Store.detectFraud, detectFraud.
    now apply store_detectFraudWith.
  - unfold detectFraud. rewrite detectFraudWith_flat_map.
    apply flat_map_ext. intros k.
    now apply processBatch_nonpositive_window.
  - etransitivity;
      [exact (detectFraudWith_canonical batchSize transactions config sched Hs)|].
    rewrite <- (partition_concat batchSize transactions Hpos) at 2.
    rewrite flat_map_concat.
    erewrite map_ext; [reflexivity|].
    intros batch. now apply processBatch_nonpositive_window.
  - intros batch i j. unfold resultsOfPair, resultsOfPairTx.
    destruct (nth_error batch i); [|reflexivity].
    destruct (nth_error batch j); [|reflexivity].
    now apply rapidSuccession_nonpositive_window.
Qed.

Lemma nonpositive_window_only_high_amount_witness :
  schedule batchSize [Scenario.b1; Scenario.a1; Scenario.a2] [0]
  /\ (TimeWindow Scenario.configZeroWindow <= 0)%Z
  /\ detectFraud [0] [Scenario.b1; Scenario.a1; Scenario.a2]
       Scenario.configZeroWindow
     = [mkFraudResult Scenario.b1 "High amount: $1500.00"].
Proof.
  assert (Hs : schedule batchSize [Scenario.b1; Scenario.a1; Scenario.a2] [0])
    by apply Permutation_refl.
  assert (HW : (TimeWindow Scenario.configZeroWindow <= 0)%Z)
    by (vm_compute; discriminate).
  split; [exact Hs|]. split; [exact HW|].
  exact (proj1 (proj2 (nonpositive_window_only_high_amount [0]
                         [Scenario.b1; Scenario.a1; Scenario.a2]
                         Scenario.configZeroWindow Hs HW))).
Defined.

(** ** Configuration errors *)

(** The run takes a window of zero: it completes and returns the
    high-amount result of the transaction, where C5 has it rejected with no
    result. *)
Lemma nonpositive_window_not_rejected :
  (TimeWindow Scenario.configZeroWindow <= 0)%Z
  /\ schedule batchSize [Scenario.b1] [0]
  /\ Store.detectFraud [0] (Store.whole [Scenario.b1])
       Scenario.configZeroWindow [Scenario.b1]
     <> None
  /\ detectFraud [0] [Scenario.b1] Scenario.configZeroWindow
     = [mkFraudResult Scenario.b1 "High amount: $1500.00"]
  /\ detectFraud [0] [Scenario.b1] Scenario.configZeroWindow <> [].
Proof.
  split; [vm_compute; discriminate|].
  split; [apply Permutation_refl|].
  split; [vm_compute; discriminate|].
  split; [vm_compute; reflexivity|].
  vm_compute. discriminate.
Qed.

(** C5, as the code has it. The run has no configuration error. The batch
    size is the constant 100, which no caller supplies. Under every
    configuration, whatever the sign of its time window, the run completes
    and its results hold the high-amount result of every transaction of the
    input whose amount exceeds the threshold. *)
Theorem run_has_no_configuration_error
  (sched : list nat) (transactions : list Transaction) (config : Config) :
  schedule batchSize transactions sched ->
  batchSize = 100
  /\ Store.detectFraud sched (Store.whole transactions) config transactions
     <> None
  /\ (forall tx : Transaction,
         In tx transactions ->
         gt (Amount tx) (HighAmountThreshold config) = true ->
         In (mkFraudResult tx (highAmountReason tx))
           (detectFraud sched transactions config)).
Proof.
  intros Hs.
  assert (Hpos : 0 < batchSize) by (unfold batchSize; lia).
  split; [reflexivity|]. split.
  - unfold Store.detectFraud.
    rewrite (store_detectFraudWith config transactions batchSize Hpos sched Hs).
    discriminate.
  - intros tx Hin Hgt.
    apply In_nth_error in Hin as [p Hp].
    assert (Hlt : p < length transactions)
      by (apply nth_error_Some; congruence).
    eapply Permutation_in.
    + apply Permutation_sym.
      exact (detectFraudWith_by_position batchSize transactions config Hpos
               sched Hs).
    + apply in_flat_map. exists p. split; [apply in_seq; lia|].
      unfold resultsUpTo, resultsOfHigh. rewrite Hp.
      apply in_or_app. left.
      rewrite (resultsOfHighTx_fires config tx Hgt). now left.
Qed.

Lemma run_has_no_configuration_error_witness :
  schedule batchSize [Scenario.b1] [0]
  /\ In (mkFraudResult Scenario.b1 "High amount: $1500.00")
       (detectFraud [0] [Scenario.b1] Scenario.configZeroWindow).
Proof.
  assert (Hs : schedule batchSize [Scenario.b1] [0]) by apply Permutation_refl.
  split; [exact Hs|].
  exact (proj2 (proj2 (run_has_no_configuration_error [0] [Scenario.b1]
                         Scenario.configZeroWindow Hs))
           Scenario.b1 (or_introl eq_refl) eq_refl).
Defined.

(** * Further properties of the engine *)

(** ** [processBatch] by recursion on the batch *)

Lemma rapidSuccession_qualifies (config : Config) (tx nextTx : Transaction) :
  rapidSuccession config tx nextTx []
  = if qualifies config tx nextTx then
      [mkFraudResult tx
         (rapidEarlierReason (Sub (Timestamp nextTx) (Timestamp tx)) nextTx);
       mkFraudResult nextTx
         (rapidLaterReason tx (Sub (Timestamp nextTx) (Timestamp tx)))]
    else [].
Proof.
  unfold rapidSuccession, qualifies.
  destruct (AccountID nextTx =? AccountID tx)%string; simpl; [|reflexivity].
  now destruct ((Sub (Timestamp nextTx) (Timestamp tx) <? TimeWindow config)%Z
                && (Sub (Timestamp nextTx) (Timestamp tx) >? 0)%Z).
Qed.

Lemma resultsAt_cons_S (config : Config) (tx : Transaction)
  (rest : list Transaction) (i : nat) :
  resultsAt config (tx :: rest) (S i) = resultsAt config rest i.
Proof.
  unfold resultsAt, resultsUpTo. simpl length.
  change (resultsOfHigh config (tx :: rest) (S i))
    with (resultsOfHigh config rest i).
  f_equal.
  replace (S (length rest) - S (S i)) with (length rest - S i) by lia.
  rewrite <- (seq_shift _ (S i)), flat_map_map.
  reflexivity.
Qed.

Lemma processBatch_step (config : Config) (tx : Transaction)
  (rest : list Transaction) :
  processBatch (tx :: rest) config
  = resultsOfHighTx config tx
      ++ flat_map (fun nextTx => rapidSuccession config tx nextTx []) rest
      ++ processBatch rest config.
Proof.
  rewrite !processBatch_unfold. simpl length.
  change (seq 0 (S (length rest))) with (0 :: seq 1 (length rest)).
  simpl flat_map. unfold resultsAt at 1, resultsUpTo. simpl length.
  change (resultsOfHigh config (tx :: rest) 0) with (resultsOfHighTx config tx).
  rewrite <- app_assoc. f_equal. f_equal.
  - replace (S (length rest) - 1) with (length rest) by lia.
    rewrite <- seq_shift, flat_map_map.
    exact (flat_map_positions
             (fun nextTx => rapidSuccession config tx nextTx []) rest).
  - rewrite <- seq_shift, flat_map_map.
    apply flat_map_ext. intros i. apply resultsAt_cons_S.
Qed.

(** X1. The output for a batch with a first transaction is the high-amount
    result of that transaction, then the results of its pairs with each later
    transaction in order, then the output for the rest of the batch. *)
Theorem processBatch_cons (config : Config) (tx : Transaction)
  (rest : list Transaction) :
  processBatch [] config = []
  /\ processBatch (tx :: rest) config
     = resultsOfHighTx config tx
         ++ flat_map (fun nextTx => rapidSuccession config tx nextTx []) rest
         ++ processBatch rest config.
Proof.
  split; [reflexivity|apply processBatch_step].
Qed.

(** ** The number of results *)

Lemma laterPairs_length (batch : list Transaction) :
  2 * length (laterPairs batch) + length batch = length batch * length batch.
Proof.
  induction batch as [|tx rest IH]; simpl; [reflexivity|].
  rewrite length_app, length_map. nia.
Qed.

Lemma rapid_results_length (config : Config) (tx : Transaction)
  (rest : list Transaction) :
  length (flat_map (fun nextTx => rapidSuccession config tx nextTx []) rest)
  = 2 * length (filter (fun p => qualifies config (fst p) (snd p))
                  (map (pair tx) rest)).
Proof.
  induction rest as [|nextTx rest IH]; simpl; [reflexivity|].
  rewrite length_app, IH, rapidSuccession_qualifies.
  destruct (qualifies config tx nextTx); simpl; lia.
Qed.

Lemma processBatch_length (config : Config) (batch : list Transaction) :
  length (processBatch batch config)
  = length (filter (fun tx => gt (Amount tx) (HighAmountThreshold config)) batch)
    + 2 * length (filter (fun p => qualifies config (fst p) (snd p))
                    (laterPairs batch)).
Proof.
  induction batch as [|tx rest IH]; [reflexivity|].
  rewrite processBatch_step, !length_app, IH, rapid_results_length.
  simpl laterPairs. rewrite filter_app, length_app. simpl filter.
  unfold resultsOfHighTx, highAmount.
  destruct (gt (Amount tx) (HighAmountThreshold config)); simpl; lia.
Qed.

(** X2. A batch has one result for each transaction above the threshold
    and two for each pair of a transaction and a later one that the two tests
    of rule 2 accept; so at most [n * n] results for [n] transactions. *)
Theorem processBatch_result_count (batch : list Transaction) (config : Config) :
  length (processBatch batch config)
  = length (filter (fun tx => gt (Amount tx) (HighAmountThreshold config)) batch)
    + 2 * length (filter (fun p => qualifies config (fst p) (snd p))
                    (laterPairs batch))
  /\ length (processBatch batch config) <= length batch * length batch.
Proof.
  split; [apply processBatch_length|].
  rewrite processBatch_length.
  pose proof (laterPairs_length batch).
  pose proof (filter_length_le
                (fun tx => gt (Amount tx) (HighAmountThreshold config)) batch).
  pose proof (filter_length_le
                (fun p => qualifies config (fst p) (snd p)) (laterPairs batch)).
  lia.
Qed.

(** ** Every result has a cause *)

Lemma processBatch_result_cause (batch : list Transaction) (config : Config)
  (r : FraudResult) :
  In r (processBatch batch config) ->
  In (Tx r) batch
  /\ ((gt (Amount (Tx r)) (HighAmountThreshold config) = true
       /\ Reason r = highAmountReason (Tx r))
      \/ exists other : Transaction,
          In other batch
          /\ ((qualifies config (Tx r) other = true
               /\ Reason r
                  = rapidEarlierReason
                      (Sub (Timestamp other) (Timestamp (Tx r))) other)
              \/ (qualifies config other (Tx r) = true
                  /\ Reason r
                     = rapidLaterReason other
                         (Sub (Timestamp (Tx r)) (Timestamp other))))).
Proof.
  induction batch as [|tx rest IH]; [intros []|].
  rewrite processBatch_step. intros H.
  apply in_app_or in H as [H|H]; [|apply in_app_or in H as [H|H]].
  - unfold resultsOfHighTx, highAmount in H.
    destruct (gt (Amount tx) (HighAmountThreshold config)) eqn:Hgt;
      [|destruct H].
    destruct H as [<-|[]]. simpl. split; [now left|]. left. now split.
  - apply in_flat_map in H as (nextTx & Hin & H).
    rewrite rapidSuccession_qualifies in H.
    destruct (qualifies config tx nextTx) eqn:Hq; [|destruct H].
    destruct H as [<-|[<-|[]]]; simpl.
    + split; [now left|]. right. exists nextTx.
      split; [now right|]. left. now split.
    + split; [now right|]. right. exists tx.
      split; [now left|]. right. now split.
  - destruct (IH H) as [Hin Hc]. split; [now right|].
    destruct Hc as [Hc|(other & Ho & Hc)]; [now left|].
    right. exists other. split; [now right|exact Hc].
Qed.

(** X3. Every result of a run has a cause in its own batch: either its
    transaction is above the threshold and the reason is the high-amount
    reason of that transaction, or the batch holds another transaction that
    passes the two tests of rule 2 with it, and the reason is the one of the
    earlier or of the later transaction of that pair. *)
Theorem every_result_has_a_cause
  (sched : list nat) (transactions : list Transaction) (config : Config)
  (r : FraudResult) :
  schedule batchSize transactions sched ->
  In r (detectFraud sched transactions config) ->
  exists k : nat,
    k < numBatches batchSize (length transactions)
    /\ In (Tx r) (batchAt batchSize transactions k)
    /\ ((gt (Amount (Tx r)) (HighAmountThreshold config) = true
         /\ Reason r = highAmountReason (Tx r))
        \/ exists other : Transaction,
            In other (batchAt batchSize transactions k)
            /\ ((qualifies config (Tx r) other = true
                 /\ Reason r
                    = rapidEarlierReason
                        (Sub (Timestamp other) (Timestamp (Tx r))) other)
                \/ (qualifies config other (Tx r) = true
                    /\ Reason r
                       = rapidLaterReason other
                           (Sub (Timestamp (Tx r)) (Timestamp other))))).
Proof.
  intros Hs H. unfold detectFraud in H.
  rewrite detectFraudWith_flat_map in H.
  apply in_flat_map in H as (k & Hk & H).
  apply (Permutation_in _ Hs), in_seq in Hk.
  exists k. split; [lia|].
  now apply processBatch_result_cause.
Qed.

Lemma every_result_has_a_cause_witness :
  schedule batchSize [Scenario.a1; Scenario.a2] [0]
  /\ In (mkFraudResult Scenario.a2
           "Rapid transaction: following $50.00 after 2m0s")
       (detectFraud [0] [Scenario.a1; Scenario.a2] Scenario.config)
  /\ exists k : nat,
      k < numBatches batchSize 2
      /\ In Scenario.a2 (batchAt batchSize [Scenario.a1; Scenario.a2] k).
Proof.
  assert (Hs : schedule batchSize [Scenario.a1; Scenario.a2] [0])
    by apply Permutation_refl.
  assert (Hr : In (mkFraudResult Scenario.a2
                     "Rapid transaction: following $50.00 after 2m0s")
                 (detectFraud [0] [Scenario.a1; Scenario.a2] Scenario.config))
    by (vm_compute; right; left; reflexivity).
  split; [exact Hs|]. split; [exact Hr|].
  destruct (every_result_has_a_cause [0] [Scenario.a1; Scenario.a2]
              Scenario.config _ Hs Hr) as (k & Hk & Hin & _).
  exists k. split; [exact Hk|exact Hin].
Defined.

(** ** Runs without rapid succession *)

Lemma qualifies_false_silent (config : Config) (tx nextTx : Transaction) :
  qualifies config tx nextTx = false -> rapidSuccession config tx nextTx [] = [].
Proof.
  intros H. now rewrite rapidSuccession_qualifies, H.
Qed.

Lemma only_high_amount_results
  (sched : list nat) (transactions : list Transaction) (config : Config) :
  schedule batchSize transactions sched ->
  (forall (p q : nat) (tx nextTx : Transaction),
      p < q -> p / batchSize = q / batchSize ->
      nth_error transactions p = Some tx ->
      nth_error transactions q = Some nextTx ->
      qualifies config tx nextTx = false) ->
  Permutation (detectFraud sched transactions config)
    (flat_map (resultsOfHighTx config) transactions).
Proof.
  intros Hs Hq.
  assert (Hpos : 0 < batchSize) by (unfold batchSize; lia).
  etransitivity;
    [exact (detectFraudWith_by_position batchSize transactions config Hpos
              sched Hs)|].
  rewrite <- (flat_map_positions (resultsOfHighTx config) transactions).
  erewrite flat_map_ext_in; [reflexivity|].
  intros p Hp. apply in_seq in Hp.
  unfold resultsUpTo. fold (resultsOfHigh config transactions p).
  rewrite flat_map_nil; [apply app_nil_r|].
  intros q Hin.
  assert (Hpq : p < q < length transactions)
    by (apply in_seq in Hin; unfold batchEnd in Hin; lia).
  apply (same_batch_iff batchSize (length transactions) p q Hpos Hpq) in Hin.
  unfold resultsOfPair, resultsOfPairTx.
  destruct (nth_error transactions p) as [tx|] eqn:Ep; [|reflexivity].
  destruct (nth_error transactions q) as [nextTx|] eqn:Eq; [|reflexivity].
  apply qualifies_false_silent.
  apply (Hq p q tx nextTx); solve [lia|assumption].
Qed.

(** X4. When no two positions of the same batch hold a pair that passes
    the two tests of rule 2, the results of a run are the high-amount results
    of the input and nothing else, whatever pairs qualify across batches. *)
Theorem no_pair_within_a_batch_only_high_amount
  (sched : list nat) (transactions : list Transaction) (config : Config) :
  schedule batchSize transactions sched ->
  (forall (p q : nat) (tx nextTx : Transaction),
      p < q -> p / batchSize = q / batchSize ->
      nth_error transactions p = Some tx ->
      nth_error transactions q = Some nextTx ->
      qualifies config tx nextTx = false) ->
  Permutation (detectFraud sched transactions config)
    (flat_map (resultsOfHighTx config) transactions).
Proof. apply only_high_amount_results. Qed.

Lemma no_pair_within_a_batch_only_high_amount_witness :
  schedule batchSize Scenario.transactionsC [1; 0]
  /\ qualifies Scenario.config (Scenario.c 99) (Scenario.c 100) = true
  /\ Permutation (detectFraud [1; 0] Scenario.transactionsC Scenario.config)
       (flat_map (resultsOfHighTx Scenario.config) Scenario.transactionsC).
Proof.
  assert (Hs : schedule batchSize Scenario.transactionsC [1; 0])
    by apply perm_swap.
  split; [exact Hs|]. split; [vm_compute; reflexivity|].
  apply (no_pair_within_a_batch_only_high_amount [1; 0]
           Scenario.transactionsC Scenario.config Hs).
  assert (Hall :
    forallb
      (fun p =>
         forallb
           (fun q =>
              if (p <? q) && (p / batchSize =? q / batchSize) then
                negb (qualifies Scenario.config (Scenario.c p) (Scenario.c q))
              else true)
           (seq 0 150))
      (seq 0 150) = true) by (vm_compute; reflexivity).
  intros p q tx nextTx Hpq Hb Hp Hq.
  assert (Hlt : q < 150).
  { change 150 with (length Scenario.transactionsC).
    apply nth_error_Some. congruence. }
  unfold Scenario.transactionsC in Hp, Hq.
  rewrite nth_error_map, nth_error_seq in Hp, Hq.
  destruct (Nat.ltb_spec p 150); [|lia].
  destruct (Nat.ltb_spec q 150); [|lia].
  simpl in Hp, Hq. injection Hp as <-. injection Hq as <-.
  rewrite forallb_forall in Hall.
  specialize (Hall p ltac:(apply in_seq; lia)).
  rewrite forallb_forall in Hall.
  specialize (Hall q ltac:(apply in_seq; lia)).
  apply Nat.ltb_lt in Hpq. apply Nat.eqb_eq in Hb.
  rewrite Hpq, Hb in Hall. simpl in Hall.
  now apply negb_true_iff in Hall.
Defined.

Lemma Sub_nonpositive (t u : Time) : (t <= u)%Z -> (Sub t u <= 0)%Z.
Proof.
  intros H. unfold Sub, minDuration, maxDuration.
  destruct (Z.ltb_spec (t - u) (- 2 ^ 63)); [lia|].
  destruct (Z.ltb_spec (2 ^ 63 - 1) (t - u)); lia.
Qed.

(** X5. When the accounts of the input are pairwise distinct, the results
    of a run are the high-amount results of the input and nothing else. *)
Theorem distinct_accounts_only_high_amount
  (sched : list nat) (transactions : list Transaction) (config : Config) :
  schedule batchSize transactions sched ->
  NoDup (map AccountID transactions) ->
  Permutation (detectFraud sched transactions config)
    (flat_map (resultsOfHighTx config) transactions).
Proof.
  intros Hs Hnd. apply only_high_amount_results; [exact Hs|].
  intros p q tx nextTx Hpq _ Hp Hq.
  unfold qualifies. apply andb_false_iff. left.
  apply String.eqb_neq. intros E.
  assert (Hlt : p < length (map AccountID transactions))
    by (rewrite length_map; apply nth_error_Some; congruence).
  assert (Heq : p = q).
  { apply (proj1 (NoDup_nth_error _) Hnd p q Hlt).
    rewrite !nth_error_map, Hp, Hq. simpl. now rewrite E. }
  lia.
Qed.

Lemma distinct_accounts_only_high_amount_witness :
  schedule batchSize [Scenario.d 0; Scenario.d 1] [0]
  /\ NoDup (map AccountID [Scenario.d 0; Scenario.d 1])
  /\ Permutation
       (detectFraud [0] [Scenario.d 0; Scenario.d 1] Scenario.config)
       (flat_map (resultsOfHighTx Scenario.config)
          [Scenario.d 0; Scenario.d 1]).
Proof.
  assert (Hs : schedule batchSize [Scenario.d 0; Scenario.d 1] [0])
    by apply Permutation_refl.
  assert (Hnd : NoDup (map AccountID [Scenario.d 0; Scenario.d 1])).
  { simpl. constructor.
    - intros [H|[]]. revert H. vm_compute. discriminate.
    - constructor; [intros []|constructor]. }
  split; [exact Hs|]. split; [exact Hnd|].
  exact (distinct_accounts_only_high_amount [0] [Scenario.d 0; Scenario.d 1]
           Scenario.config Hs Hnd).
Defined.

(** X6. Rule 2 reads the batch in position order: when no transaction is
    later in time than one before it in the input, a sequence in reverse
    chronological order for one, no pair has a result and the run returns the
    high-amount results only, however close in time the transactions of an
    account are. *)
Theorem reverse_chronological_only_high_amount
  (sched : list nat) (transactions : list Transaction) (config : Config) :
  schedule batchSize transactions sched ->
  (forall (p q : nat) (tx nextTx : Transaction),
      p < q ->
      nth_error transactions p = Some tx ->
      nth_error transactions q = Some nextTx ->
      (Timestamp nextTx <= Timestamp tx)%Z) ->
  Permutation (detectFraud sched transactions config)
    (flat_map (resultsOfHighTx config) transactions).
Proof.
  intros Hs Hts. apply only_high_amount_results; [exact Hs|].
  intros p q tx nextTx Hpq _ Hp Hq.
  pose proof (Sub_nonpositive _ _ (Hts p q tx nextTx Hpq Hp Hq)) as Hd.
  unfold qualifies. apply andb_false_iff. right. cbv zeta.
  apply andb_false_iff. right.
  rewrite Z.gtb_ltb. apply Z.ltb_ge. exact Hd.
Qed.

Lemma reverse_chronological_only_high_amount_witness :
  schedule batchSize [Scenario.a2; Scenario.a1] [0]
  /\ (forall (p q : nat) (tx nextTx : Transaction),
         p < q ->
         nth_error [Scenario.a2; Scenario.a1] p = Some tx ->
         nth_error [Scenario.a2; Scenario.a1] q = Some nextTx ->
         (Timestamp nextTx <= Timestamp tx)%Z)
  /\ length (processBatch [Scenario.a1; Scenario.a2] Scenario.config) = 2
  /\ Permutation
       (detectFraud [0] [Scenario.a2; Scenario.a1] Scenario.config) [].
Proof.
  assert (Hs : schedule batchSize [Scenario.a2; Scenario.a1] [0])
    by apply Permutation_refl.
  assert (Hts : forall (p q : nat) (tx nextTx : Transaction),
             p < q ->
             nth_error [Scenario.a2; Scenario.a1] p = Some tx ->
             nth_error [Scenario.a2; Scenario.a1] q = Some nextTx ->
             (Timestamp nextTx <= Timestamp tx)%Z).
  { intros [|[|p]] [|[|[|q]]] tx nextTx Hpq Hp Hq; simpl in Hp, Hq;
      try discriminate; try lia.
    injection Hp as <-. injection Hq as <-. vm_compute. discriminate. }
  split; [exact Hs|]. split; [exact Hts|]. split; [vm_compute; reflexivity|].
  exact (reverse_chronological_only_high_amount [0]
           [Scenario.a2; Scenario.a1] Scenario.config Hs Hts).
Defined.

(** ** Inputs of one batch *)

(** X7. An input of at most [batchSize] transactions is one batch: the
    only schedule is that of its one goroutine, and the run returns the
    results of [processBatch] on the whole input, in the order it produced
    them. *)
Theorem single_batch_run
  (sched : list nat) (transactions : list Transaction) (config : Config) :
  0 < length transactions <= batchSize ->
  schedule batchSize transactions sched ->
  sched = [0]
  /\ detectFraud sched transactions config = processBatch transactions config.
Proof.
  intros [Hlo Hhi] Hs.
  assert (Hpos : 0 < batchSize) by (unfold batchSize; lia).
  assert (Hn : numBatches batchSize (length transactions) = 1).
  { rewrite (numBatches_ceil batchSize Hpos). unfold ceilDiv.
    symmetry. apply Nat.div_unique with (r := length transactions - 1);
      unfold batchSize in *; lia. }
  unfold schedule in Hs. rewrite Hn in Hs. simpl in Hs.
  apply Permutation_sym, Permutation_length_1_inv in Hs. subst sched.
  split; [reflexivity|].
  unfold detectFraud. rewrite detectFraudWith_flat_map.
  change (flat_map ?f [0]) with (f 0 ++ []).
  rewrite app_nil_r, batchAt_slice. unfold slice.
  rewrite Nat.mul_0_l, Nat.add_0_l, Nat.min_r, Nat.sub_0_r by lia.
  change (skipn 0 transactions) with transactions.
  now rewrite firstn_all.
Qed.

Lemma single_batch_run_witness :
  0 < length [Scenario.a1; Scenario.a2] <= batchSize
  /\ schedule batchSize [Scenario.a1; Scenario.a2] [0]
  /\ detectFraud [0] [Scenario.a1; Scenario.a2] Scenario.config
     = processBatch [Scenario.a1; Scenario.a2] Scenario.config.
Proof.
  assert (Hl : 0 < length [Scenario.a1; Scenario.a2] <= batchSize)
    by (unfold batchSize; simpl; lia).
  assert (Hs : schedule batchSize [Scenario.a1; Scenario.a2] [0])
    by apply Permutation_refl.
  split; [exact Hl|]. split; [exact Hs|].
  exact (proj2 (single_batch_run [0] [Scenario.a1; Scenario.a2]
                  Scenario.config Hl Hs)).
Defined.

(** ** Widening the window *)





(** * The configuration of [main] *)

Lemma wrap64_small (z : Z) :
  (- 2 ^ 63 <= z < 2 ^ 63)%Z -> wrap64 z = z.
Proof.
  intros H. unfold wrap64. rewrite Z.mod_small; lia.
Qed.

Lemma wrap64_range (z : Z) : (- 2 ^ 63 <= wrap64 z < 2 ^ 63)%Z.
Proof.
  unfold wrap64.
  pose proof (Z.mod_pos_bound (z + 2 ^ 63) (2 ^ 64) ltac:(lia)). lia.
Qed.

Lemma wrap64_above (z : Z) :
  (2 ^ 63 <= z < 2 ^ 64)%Z -> wrap64 z = (z - 2 ^ 64)%Z.
Proof.
  intros H. unfold wrap64.
  rewrite <- (Z.mod_unique_pos (z + 2 ^ 63) (2 ^ 64) 1 (z - 2 ^ 63)); lia.
Qed.

Lemma detectFraud_nonpositive_window
  (sched : list nat) (transactions : list Transaction) (config : Config) :
  schedule batchSize transactions sched ->
  (TimeWindow config <= 0)%Z ->
  Permutation (detectFraud sched transactions config)
    (flat_map (resultsOfHighTx config) transactions).
Proof.
  intros Hs HW. apply only_high_amount_results; [exact Hs|].
  intros p q tx nextTx _ _ _ _.
  unfold qualifies. apply andb_false_iff. right. cbv zeta.
  destruct (Z.ltb_spec (Sub (Timestamp nextTx) (Timestamp tx))
              (TimeWindow config)); [|reflexivity].
  simpl. rewrite Z.gtb_ltb. apply Z.ltb_ge. lia.
Qed.

(** X9. For a [-window] flag of at most 153722867 minutes in absolute
    value, the configuration [main] builds has that many minutes as its time
    window; whatever the flag, the window is a [Duration], the range on which
    the test of rule 2 is the test on the difference of the timestamps. *)
Theorem mainConfig_window
  (highAmount : float64) (timeWindow : Z) (outputFile : string) :
  (- 153722867 <= timeWindow <= 153722867)%Z ->
  TimeWindow (mainConfig highAmount timeWindow outputFile)
  = (timeWindow * Minute)%Z
  /\ (forall w : Z,
         minDuration <= TimeWindow (mainConfig highAmount w outputFile)
         <= maxDuration)%Z.
Proof.
  intros H. split.
  - unfold mainConfig, TimeWindow. apply wrap64_small.
    unfold Minute, Second, Millisecond, Microsecond, Nanosecond. lia.
  - intros w. unfold mainConfig, TimeWindow, minDuration, maxDuration.
    pose proof (wrap64_range (w * Minute)). lia.
Qed.

Lemma mainConfig_window_witness :
  (- 153722867 <= 5 <= 153722867)%Z
  /\ TimeWindow (mainConfig (ofZ 1000) 5 "") = (5 * Minute)%Z.
Proof.
  assert (H : (- 153722867 <= 5 <= 153722867)%Z) by lia.
  split; [exact H|].
  exact (proj1 (mainConfig_window (ofZ 1000) 5 "" H)).
Defined.

(** X10. A [-window] flag above 153722867 minutes, up to 307445734,
    overflows the product with [time.Minute]: the window of the configuration
    is negative, and a run under it returns the high-amount results only. *)
Theorem mainConfig_window_overflow
  (highAmount : float64) (timeWindow : Z) (outputFile : string)
  (sched : list nat) (transactions : list Transaction) :
  (153722867 < timeWindow <= 307445734)%Z ->
  schedule batchSize transactions sched ->
  let config := mainConfig highAmount timeWindow outputFile in
  TimeWindow config = (timeWindow * Minute - 2 ^ 64)%Z
  /\ (TimeWindow config < 0)%Z
  /\ Permutation (detectFraud sched transactions config)
       (flat_map (resultsOfHighTx config) transactions).
Proof.
  intros H Hs config.
  assert (E : TimeWindow config = (timeWindow * Minute - 2 ^ 64)%Z).
  { unfold config, mainConfig, TimeWindow. apply wrap64_above.
    unfold Minute, Second, Millisecond, Microsecond, Nanosecond. lia. }
  assert (Hneg : (TimeWindow config < 0)%Z).
  { rewrite E. unfold Minute, Second, Millisecond, Microsecond, Nanosecond.
    lia. }
  split; [exact E|]. split; [exact Hneg|].
  apply detectFraud_nonpositive_window; [exact Hs|lia].
Qed.

Lemma mainConfig_window_overflow_witness :
  (153722867 < 153722868 <= 307445734)%Z
  /\ schedule batchSize [Scenario.a1; Scenario.a2] [0]
  /\ TimeWindow (mainConfig (ofZ 1000) 153722868 "") = (- 9223371993709551616)%Z
  /\ length (detectFraud [0] [Scenario.a1; Scenario.a2]
               (mainConfig (ofZ 1000) 153722867 "")) = 2
  /\ Permutation
       (detectFraud [0] [Scenario.a1; Scenario.a2]
          (mainConfig (ofZ 1000) 153722868 ""))
       [].
Proof.
  assert (H : (153722867 < 153722868 <= 307445734)%Z) by lia.
  assert (Hs : schedule batchSize [Scenario.a1; Scenario.a2] [0])
    by apply Permutation_refl.
  split; [exact H|]. split; [exact Hs|].
  split; [vm_compute; reflexivity|]. split; [vm_compute; reflexivity|].
  exact (proj2 (proj2 (mainConfig_window_overflow (ofZ 1000) 153722868 ""
                         [0] [Scenario.a1; Scenario.a2] H Hs))).
Defined.

(** * Reading the records of a CSV file *)

Section ReaderFacts.

Variable ParseFloat : string -> result float64.
Variable ParseTime : string -> result Time.

Lemma readRecord_Ok (i : nat) (record : list string) (tx : Transaction) :
  readRecord ParseFloat ParseTime i record = Ok tx <-> rowOf ParseFloat ParseTime record tx.
Proof.
  unfold readRecord, rowOf. split.
  - destruct (Nat.ltb_spec (length record) 5) as [Hlt|Hge]; [discriminate|].
    destruct (ParseFloat (nth 1 record "")) as [amount|err]; [|discriminate].
    destruct (ParseTime (nth 2 record "")) as [timestamp|err]; [|discriminate].
    intros [= <-]. simpl. repeat split; solve [reflexivity|lia].
  - intros (Hlen & Hid & Hamount & Hts & Hacc & Hmerch).
    destruct (Nat.ltb_spec (length record) 5) as [Hlt|Hge]; [lia|].
    rewrite Hamount, Hts, Hid, Hacc, Hmerch. now destruct tx.
Qed.

Lemma readCSVLoop_Ok :
  forall (rows : list (list string)) (i : nat) (acc txs : list Transaction),
    0 < i ->
    readCSVLoop ParseFloat ParseTime rows i acc = Ok txs
    <-> exists out, txs = acc ++ out /\ Forall2 (rowOf ParseFloat ParseTime) rows out.
Proof.
  induction rows as [|record rows IH]; intros i acc txs Hi; simpl.
  - split.
    + intros [= <-]. exists []. split; [now rewrite app_nil_r|constructor].
    + intros (out & -> & H). inversion H. now rewrite app_nil_r.
  - destruct (Nat.eqb_spec i 0) as [->|_]; [lia|].
    destruct (readRecord ParseFloat ParseTime i record) as [tx|msg] eqn:E.
    + apply readRecord_Ok in E. rewrite (IH (S i)) by lia. split.
      * intros (out & -> & H). exists (tx :: out).
        split; [now rewrite <- app_assoc|now constructor].
      * intros (out & -> & H). inversion H as [|? tx' ? out' Hr Hf]; subst.
        assert (tx' = tx).
        { apply (proj2 (readRecord_Ok i record tx')) in Hr.
          apply (proj2 (readRecord_Ok i record tx)) in E. congruence. }
        subst tx'. exists out'. split; [now rewrite <- app_assoc|exact Hf].
    + split; [discriminate|].
      intros (out & _ & H). inversion H as [|? tx' ? out' Hr Hf]; subst.
      apply (proj2 (readRecord_Ok i record tx')) in Hr. congruence.
Qed.

Lemma readCSVLoop_good_rows :
  forall (good : list (list string)) (goodTxs : list Transaction),
    Forall2 (rowOf ParseFloat ParseTime) good goodTxs ->
    forall (rest : list (list string)) (i : nat) (acc : list Transaction),
      0 < i ->
      readCSVLoop ParseFloat ParseTime (good ++ rest) i acc
      = readCSVLoop ParseFloat ParseTime rest (i + length good) (acc ++ goodTxs).
Proof.
  induction 1 as [|record tx good goodTxs Hr Hf IH]; intros rest i acc Hi; simpl.
  - now rewrite Nat.add_0_r, app_nil_r.
  - destruct (Nat.eqb_spec i 0) as [->|_]; [lia|].
    rewrite (proj2 (readRecord_Ok i record tx) Hr).
    rewrite IH by lia. f_equal; [lia|now rewrite <- app_assoc].
Qed.

(** X11. The loop of [readCSV] never reads the first record, the header.
    It returns transactions exactly when every other record has at least five
    fields, an amount [ParseFloat] accepts and a timestamp [time.Parse]
    accepts; the transactions are then those of the records, one for each, in
    the order of the file, with the fields of the record as identifier,
    amount, timestamp, account and merchant. No record at all gives no
    transaction and no error. *)
Theorem readCSV_success
  (header : list string) (rows : list (list string)) (txs : list Transaction) :
  (readCSVRecords ParseFloat ParseTime (header :: rows) = Ok txs <-> Forall2 (rowOf ParseFloat ParseTime) rows txs)
  /\ readCSVRecords ParseFloat ParseTime [] = Ok [].
Proof.
  split; [|reflexivity].
  unfold readCSVRecords. simpl.
  rewrite (readCSVLoop_Ok rows 1 [] txs) by lia. split.
  - now intros (out & -> & H).
  - intros H. now exists txs.
Qed.

(** The first malformed record, after well-formed ones, decides the outcome
    of the loop. *)
Lemma readCSVRecords_first_bad_row
  (header : list string) (good : list (list string))
  (goodTxs : list Transaction) (bad : list string)
  (rest : list (list string)) :
  Forall2 (rowOf ParseFloat ParseTime) good goodTxs ->
  let line := formatInt (length good + 2) in
  let outcome := readCSVRecords ParseFloat ParseTime (header :: good ++ bad :: rest) in
  (length bad < 5 ->
   outcome = Err ("invalid CSV format at line " ++ line)%string)
  /\ (forall err : string,
         5 <= length bad ->
         ParseFloat (nth 1 bad "") = Err err ->
         outcome = Err ("invalid amount at line " ++ line ++ ": " ++ err)%string)
  /\ (forall (amount : float64) (err : string),
         5 <= length bad ->
         ParseFloat (nth 1 bad "") = Ok amount ->
         ParseTime (nth 2 bad "") = Err err ->
         outcome
         = Err ("invalid timestamp at line " ++ line ++ ": " ++ err)%string).
Proof.
  intros Hgood line outcome.
  assert (E : outcome = match readRecord ParseFloat ParseTime (S (length good)) bad with
                        | Ok tx => readCSVLoop ParseFloat ParseTime rest (S (S (length good)))
                                     (goodTxs ++ [tx])
                        | Err msg => Err msg
                        end).
  { unfold outcome, readCSVRecords. simpl.
    rewrite (readCSVLoop_good_rows good goodTxs Hgood (bad :: rest) 1 [])
      by lia.
    reflexivity. }
  assert (Hline : formatInt (S (length good) + 1) = line)
    by (unfold line; f_equal; lia).
  rewrite E. unfold readRecord. rewrite Hline.
  split; [|split].
  - intros Hlt. apply Nat.ltb_lt in Hlt. now rewrite Hlt.
  - intros err Hge Hf. apply Nat.ltb_ge in Hge. now rewrite Hge, Hf.
  - intros amount err Hge Hf Ht. apply Nat.ltb_ge in Hge.
    now rewrite Hge, Hf, Ht.
Qed.

Lemma readRecord_firstn (i : nat) (record : list string) :
  readRecord ParseFloat ParseTime i (firstn 5 record) = readRecord ParseFloat ParseTime i record.
Proof.
  destruct record as [|a [|b [|c [|d [|e record]]]]]; reflexivity.
Qed.

Lemma readCSVLoop_firstn :
  forall (records : list (list string)) (i : nat) (acc : list Transaction),
    readCSVLoop ParseFloat ParseTime (map (firstn 5) records) i acc = readCSVLoop ParseFloat ParseTime records i acc.
Proof.
  induction records as [|record records IH]; intros i acc.
  - reflexivity.
  - cbn [map readCSVLoop]. rewrite readRecord_firstn.
    destruct (i =? 0); [apply IH|].
    destruct (readRecord ParseFloat ParseTime i record); [apply IH|reflexivity].
Qed.

End ReaderFacts.

Lemma readCSV_success_witness :
  Forall2 (rowOf Sample.parseFloat Sample.parseTime)
    [Sample.row1; Sample.row2] [Sample.tx1; Sample.tx2]
  /\ readCSVRecords Sample.parseFloat Sample.parseTime
       [Sample.header; Sample.row1; Sample.row2]
     = Ok [Sample.tx1; Sample.tx2].
Proof.
  assert (H : Forall2 (rowOf Sample.parseFloat Sample.parseTime)
                [Sample.row1; Sample.row2] [Sample.tx1; Sample.tx2]).
  { repeat constructor. }
  split; [exact H|].
  exact (proj2 (proj1 (readCSV_success Sample.parseFloat Sample.parseTime
                         Sample.header [Sample.row1; Sample.row2]
                         [Sample.tx1; Sample.tx2])) H).
Defined.

(** The sample file of the README, read and then checked: both transactions
    are above the threshold, and they are two minutes apart on one account. *)
Example sample_file_results :
  match readCSVRecords Sample.parseFloat Sample.parseTime
          [Sample.header; Sample.row1; Sample.row2] with
  | Ok transactions =>
      map Reason (detectFraud [0] transactions (mainConfig (ofZ 1000) 5 ""))
  | Err _ => []
  end
  = ["High amount: $1500.00";
     "Rapid transaction: 2m0s later with $2000.00";
     "Rapid transaction: following $1500.00 after 2m0s";
     "High amount: $2000.00"]%string.
Proof. vm_compute. reflexivity. Qed.

(** * Bursts *)

Lemma burst_pairs_all_qualify (config : Config) (batch : list Transaction) :
  ForallOrdPairs (fun tx nextTx => qualifies config tx nextTx = true) batch ->
  filter (fun p => qualifies config (fst p) (snd p)) (laterPairs batch)
  = laterPairs batch.
Proof.
  induction 1 as [|tx rest Hall _ IH]; [reflexivity|].
  simpl. rewrite filter_app, IH. f_equal.
  clear IH. induction Hall as [|nextTx rest Hq _ IH]; [reflexivity|].
  simpl. now rewrite Hq, IH.
Qed.

(** X14. A burst, a batch in which every transaction passes the two tests
    of rule 2 with every later one, has two results for each of its
    [n * (n - 1) / 2] pairs: [n * (n - 1)] results for rapid succession, next
    to one for each transaction above the threshold. *)
Theorem burst_result_count (batch : list Transaction) (config : Config) :
  ForallOrdPairs (fun tx nextTx => qualifies config tx nextTx = true) batch ->
  length (processBatch batch config)
  = length (filter (fun tx => gt (Amount tx) (HighAmountThreshold config)) batch)
    + length batch * (length batch - 1).
Proof.
  intros H.
  rewrite processBatch_length, (burst_pairs_all_qualify config batch H).
  pose proof (laterPairs_length batch). nia.
Qed.

Lemma burst_result_count_witness :
  ForallOrdPairs
    (fun tx nextTx => qualifies Scenario.config tx nextTx = true)
    [mkTransaction "1" (ofZ 1500) 0%Z "ACC" "A";
     mkTransaction "2" (ofZ 60) (1 * Minute)%Z "ACC" "B";
     mkTransaction "3" (ofZ 70) (2 * Minute)%Z "ACC" "C"]
  /\ length
       (processBatch
          [mkTransaction "1" (ofZ 1500) 0%Z "ACC" "A";
           mkTransaction "2" (ofZ 60) (1 * Minute)%Z "ACC" "B";
           mkTransaction "3" (ofZ 70) (2 * Minute)%Z "ACC" "C"]
          Scenario.config)
     = 1 + 3 * 2.
Proof.
  assert (H : ForallOrdPairs
                (fun tx nextTx => qualifies Scenario.config tx nextTx = true)
                [mkTransaction "1" (ofZ 1500) 0%Z "ACC" "A";
                 mkTransaction "2" (ofZ 60) (1 * Minute)%Z "ACC" "B";
                 mkTransaction "3" (ofZ 70) (2 * Minute)%Z "ACC" "C"]).
  { repeat constructor. }
  split; [exact H|].
  exact (burst_result_count _ Scenario.config H).
Defined.

(** * [readCSV] on a file *)

Section ReadCSVFacts.

Variable ReadAll : string -> result (list (list string)).
Variable ParseFloat : string -> result float64.
Variable ParseTime : string -> result Time.

(** X12. Let [ReadAll] return, for a file, a header, then records that
    are all well formed, then a record that is not. [readCSV] returns an
    error and no transaction. The number in the message is the position of
    that record among the records [ReadAll] returned, counted from 1 with the
    header: the line of the file when every record is one line and no line is
    empty. The number of fields is checked before the amount, and the amount
    before the timestamp. The outcome does not depend on the records that
    follow. *)
Theorem readCSV_first_bad_row
  (file : string) (header : list string) (good : list (list string))
  (goodTxs : list Transaction) (bad : list string)
  (rest : list (list string)) :
  ReadAll file = Ok (header :: good ++ bad :: rest) ->
  Forall2 (rowOf ParseFloat ParseTime) good goodTxs ->
  let line := formatInt (length good + 2) in
  let outcome := readCSV ReadAll ParseFloat ParseTime file in
  (length bad < 5 ->
   outcome = Err ("invalid CSV format at line " ++ line)%string)
  /\ (forall err : string,
         5 <= length bad ->
         ParseFloat (nth 1 bad "") = Err err ->
         outcome = Err ("invalid amount at line " ++ line ++ ": " ++ err)%string)
  /\ (forall (amount : float64) (err : string),
         5 <= length bad ->
         ParseFloat (nth 1 bad "") = Ok amount ->
         ParseTime (nth 2 bad "") = Err err ->
         outcome
         = Err ("invalid timestamp at line " ++ line ++ ": " ++ err)%string).
Proof.
  intros Hread Hgood line outcome.
  unfold outcome, readCSV. rewrite Hread.
  exact (readCSVRecords_first_bad_row ParseFloat ParseTime header good goodTxs
           bad rest Hgood).
Qed.

(** X13. Fields after the fifth are not read. When [ReadAll] returns, for
    a second file, the records it returns for a first file, each cut to its
    first five fields, [readCSV] returns the same transactions, or the same
    error, for the two files. *)
Theorem readCSV_ignores_extra_fields
  (file file' : string) (records : list (list string)) :
  ReadAll file = Ok records ->
  ReadAll file' = Ok (map (firstn 5) records) ->
  readCSV ReadAll ParseFloat ParseTime file'
  = readCSV ReadAll ParseFloat ParseTime file.
Proof.
  intros Hread Hread'. unfold readCSV. rewrite Hread, Hread'.
  apply readCSVLoop_firstn.
Qed.

End ReadCSVFacts.

Lemma readCSV_first_bad_row_witness :
  (Sample.readAll Sample.fileBadAmount
   = Ok (Sample.header :: [Sample.row1] ++ Sample.rowBadAmount :: [Sample.row2])
   /\ Forall2 (rowOf Sample.parseFloat Sample.parseTime)
        [Sample.row1] [Sample.tx1]
   /\ 5 <= length Sample.rowBadAmount
   /\ readCSV Sample.readAll Sample.parseFloat Sample.parseTime
        Sample.fileBadAmount
      = Err ("invalid amount at line 3: strconv.ParseFloat: parsing "
               ++ Sample.quoted "abc" ++ ": invalid syntax")%string)
  /\ (Sample.readAll Sample.fileTwoColumns
      = Ok (["id"; "amount"]%string :: [] ++ ["1"; "1500.00"]%string :: [])
      /\ length ["1"; "1500.00"]%string < 5
      /\ readCSV Sample.readAll Sample.parseFloat Sample.parseTime
           Sample.fileTwoColumns
         = Err "invalid CSV format at line 2").
Proof.
  assert (Hread : Sample.readAll Sample.fileBadAmount
                  = Ok (Sample.header :: [Sample.row1]
                          ++ Sample.rowBadAmount :: [Sample.row2]))
    by (vm_compute; reflexivity).
  assert (Hgood : Forall2 (rowOf Sample.parseFloat Sample.parseTime)
                    [Sample.row1] [Sample.tx1]).
  { repeat constructor. }
  assert (Hlen : 5 <= length Sample.rowBadAmount) by (simpl; lia).
  assert (Hread2 : Sample.readAll Sample.fileTwoColumns
                   = Ok (["id"; "amount"]%string :: []
                           ++ ["1"; "1500.00"]%string :: []))
    by (vm_compute; reflexivity).
  assert (Hshort : length ["1"; "1500.00"]%string < 5) by (simpl; lia).
  split.
  - split; [exact Hread|]. split; [exact Hgood|]. split; [exact Hlen|].
    exact (proj1 (proj2 (readCSV_first_bad_row Sample.readAll
                           Sample.parseFloat Sample.parseTime
                           Sample.fileBadAmount Sample.header [Sample.row1]
                           [Sample.tx1] Sample.rowBadAmount [Sample.row2]
                           Hread Hgood))
             _ Hlen eq_refl).
  - split; [exact Hread2|]. split; [exact Hshort|].
    exact (proj1 (readCSV_first_bad_row Sample.readAll
                    Sample.parseFloat Sample.parseTime
                    Sample.fileTwoColumns ["id"; "amount"]%string [] []
                    ["1"; "1500.00"]%string [] Hread2 (Forall2_nil _))
             Hshort).
Defined.

Lemma readCSV_ignores_extra_fields_witness :
  Sample.readAll Sample.fileSixColumns = Ok Sample.recordsSixColumns
  /\ Sample.readAll Sample.fileReadme
     = Ok (map (firstn 5) Sample.recordsSixColumns)
  /\ readCSV Sample.readAll Sample.parseFloat Sample.parseTime
       Sample.fileReadme
     = readCSV Sample.readAll Sample.parseFloat Sample.parseTime
         Sample.fileSixColumns
  /\ readCSV Sample.readAll Sample.parseFloat Sample.parseTime
       Sample.fileSixColumns
     = Ok [Sample.tx1; Sample.tx2].
Proof.
  assert (H6 : Sample.readAll Sample.fileSixColumns
               = Ok Sample.recordsSixColumns) by (vm_compute; reflexivity).
  assert (H5 : Sample.readAll Sample.fileReadme
               = Ok (map (firstn 5) Sample.recordsSixColumns))
    by (vm_compute; reflexivity).
  split; [exact H6|]. split; [exact H5|]. split.
  - exact (readCSV_ignores_extra_fields Sample.readAll Sample.parseFloat
             Sample.parseTime Sample.fileSixColumns Sample.fileReadme
             Sample.recordsSixColumns H6 H5).
  - vm_compute. reflexivity.
Defined.
